(** * decode_response.py: the XWallet enclave-response decoder

    A shallow embedding of
    [docs/examples/x-wallet-dev/nautilus-xwallet/decode_response.py]
    together with the part of the Python 3 runtime the script relies on
    (CPython 3.11, 64-bit): [str] as a sequence of code points, [bytes],
    the objects produced by [json.load], the strict UTF-8 codec, true
    division and the formatting done by f-strings. *)

From Stdlib Require Import String Ascii ZArith List Bool Lia.
From Stdlib Require Import Floats.SpecFloat.
Import ListNotations.
Open Scope Z_scope.

(** ** Python values *)

Module Py.

(** A [str] is a sequence of Unicode code points ([0 .. 0x10FFFF]); lone
    surrogates are possible, as [json.load] produces them from a
    [\udXXX] escape. *)
Definition pystr := list Z.

(** A [bytes] object: every element is in [range(0, 256)]. *)
Definition pybytes := list Z.

(** The text of an ASCII literal of the script. *)
Definition lit (s : string) : pystr :=
  map (fun a => Z.of_N (N_of_ascii a)) (list_ascii_of_string s).

Fixpoint pystr_eqb (a b : pystr) : bool :=
  match a, b with
  | [], [] => true
  | x :: a', y :: b' => (x =? y) && pystr_eqb a' b'
  | _, _ => false
  end.

(** The exception classes the script can raise. *)
Inductive exn :=
| KeyError
| TypeError
| ValueError
| OverflowError
| ZeroDivisionError
| UnicodeDecodeError
| OSError
| JSONDecodeError.

Inductive result (A : Type) :=
| Ok (a : A)
| Raise (e : exn).
Arguments Ok {A} a.
Arguments Raise {A} e.

Definition rbind {A B} (r : result A) (k : A -> result B) : result B :=
  match r with
  | Ok a => k a
  | Raise e => Raise e
  end.

(** What [json.load] returns: [None], [bool], [int], [float], [str],
    [list] and [dict] (keys are [str], in insertion order, without
    duplicates).  A [float] is a binary64 number in canonical form; an
    [int] is unbounded. *)
#[warnings="-register-all"]
Inductive json :=
| JNull
| JBool (b : bool)
| JInt (n : Z)
| JFloat (f : spec_float)
| JStr (s : pystr)
| JList (l : list json)
| JDict (d : list (pystr * json)).

Fixpoint dict_get (k : pystr) (d : list (pystr * json)) : option json :=
  match d with
  | [] => None
  | (k', v) :: d' => if pystr_eqb k k' then Some v else dict_get k d'
  end.

(** [obj[key]] with a [str] key. *)
Definition getitem (obj : json) (key : pystr) : result json :=
  match obj with
  | JDict d =>
      match dict_get key d with
      | Some v => Ok v
      | None => Raise KeyError
      end
  | _ => Raise TypeError
  end.

(** *** The UTF-8 codec *)

Definition is_continuation (b : Z) : bool := (0x80 <=? b) && (b <? 0xC0).

(** [bytes.decode('utf-8')], errors='strict': overlong forms, surrogates
    and code points above [0x10FFFF] are refused. *)
Fixpoint utf8_decode (bs : pybytes) : option pystr :=
  match bs with
  | [] => Some []
  | ch :: r1 =>
      if ch <? 0x80 then option_map (cons ch) (utf8_decode r1)
      else if ch <? 0xC2 then None
      else if ch <? 0xE0 then
        match r1 with
        | ch2 :: r2 =>
            if is_continuation ch2
            then option_map (cons (ch * 64 + ch2 - (0xC0 * 64 + 0x80)))
                            (utf8_decode r2)
            else None
        | _ => None
        end
      else if ch <? 0xF0 then
        match r1 with
        | ch2 :: ch3 :: r3 =>
            if is_continuation ch2 && is_continuation ch3
               && negb ((ch =? 0xE0) && (ch2 <? 0xA0))
               && negb ((ch =? 0xED) && (0xA0 <=? ch2))
            then option_map
                   (cons (ch * 4096 + ch2 * 64 + ch3
                          - (0xE0 * 4096 + 0x80 * 64 + 0x80)))
                   (utf8_decode r3)
            else None
        | _ => None
        end
      else if ch <? 0xF5 then
        match r1 with
        | ch2 :: ch3 :: ch4 :: r4 =>
            if is_continuation ch2 && is_continuation ch3
               && is_continuation ch4
               && negb ((ch =? 0xF0) && (ch2 <? 0x90))
               && negb ((ch =? 0xF4) && (0x90 <=? ch2))
            then option_map
                   (cons (ch * 262144 + ch2 * 4096 + ch3 * 64 + ch4
                          - (0xF0 * 262144 + 0x80 * 4096 + 0x80 * 64 + 0x80)))
                   (utf8_decode r4)
            else None
        | _ => None
        end
      else None
  end.

(** The UTF-8 form of one code point; surrogates have none. *)
Definition utf8_encode_char (c : Z) : option pybytes :=
  if c <? 0 then None
  else if c <? 0x80 then Some [c]
  else if c <? 0x800 then Some [0xC0 + c / 64; 0x80 + c mod 64]
  else if c <? 0x10000 then
    if (0xD800 <=? c) && (c <? 0xE000) then None
    else Some [0xE0 + c / 4096; 0x80 + (c / 64) mod 64; 0x80 + c mod 64]
  else if c <? 0x110000 then
    Some [0xF0 + c / 262144; 0x80 + (c / 4096) mod 64;
          0x80 + (c / 64) mod 64; 0x80 + c mod 64]
  else None.

(** [list(s.encode('utf-8'))]; [None] stands for [UnicodeEncodeError]. *)
Fixpoint utf8_encode (s : pystr) : option pybytes :=
  match s with
  | [] => Some []
  | c :: s' =>
      match utf8_encode_char c, utf8_encode s' with
      | Some b, Some bs => Some (b ++ bs)
      | _, _ => None
      end
  end.

(** *** [bytes(x)] *)

(** One item of the iterable given to [bytes]: it goes through
    [__index__], so a [bool] counts as 0 or 1. *)
Definition byte_of_item (v : json) : result Z :=
  match v with
  | JInt n => if (0 <=? n) && (n <? 256) then Ok n else Raise ValueError
  | JBool b => Ok (if b then 1 else 0)
  | _ => Raise TypeError
  end.

Fixpoint bytes_of_items (l : list json) : result pybytes :=
  match l with
  | [] => Ok []
  | v :: l' =>
      rbind (byte_of_item v) (fun b =>
      rbind (bytes_of_items l') (fun bs => Ok (b :: bs)))
  end.

(** [PY_SSIZE_T_MAX - PyBytesObject_SIZE]: above it [bytes(n)] raises
    [OverflowError]. *)
Definition max_bytes_size : Z := 2 ^ 63 - 1 - 33.

(** [bytes(n)] for an [int]: [n] zero bytes (running out of memory is
    left out). *)
Definition bytes_of_count (n : Z) : result pybytes :=
  if n <? 0 then Raise ValueError
  else if max_bytes_size <? n then Raise OverflowError
  else Ok (repeat 0 (Z.to_nat n)).

(** [bytes(x)]: a list is read item by item from the left, a dict is
    iterated over its keys (which are [str]), an int is a count. *)
Definition py_bytes (x : json) : result pybytes :=
  match x with
  | JList l => bytes_of_items l
  | JDict [] => Ok []
  | JDict (_ :: _) => Raise TypeError
  | JInt n => bytes_of_count n
  | JBool b => bytes_of_count (if b then 1 else 0)
  | JNull | JFloat _ | JStr _ => Raise TypeError
  end.

Definition bytes_decode_utf8 (bs : pybytes) : result pystr :=
  match utf8_decode bs with
  | Some s => Ok s
  | None => Raise UnicodeDecodeError
  end.

(** *** Slices *)

(** How a slice bound is clipped to a sequence of length [len]. *)
Definition slice_index (len i : Z) : Z :=
  if i <? 0 then Z.max (len + i) 0 else Z.min i len.

(** [l[start:stop]]; an omitted bound is [None]. *)
Definition py_slice {A} (start stop : option Z) (l : list A) : list A :=
  let len := Z.of_nat (List.length l) in
  let lo := match start with Some i => slice_index len i | None => 0 end in
  let hi := match stop with Some i => slice_index len i | None => len end in
  firstn (Z.to_nat (hi - lo)) (skipn (Z.to_nat lo) l).

(** *** [int] to text *)

Fixpoint uint_str (u : Decimal.uint) : pystr :=
  match u with
  | Decimal.Nil => []
  | Decimal.D0 u' => 48 :: uint_str u'
  | Decimal.D1 u' => 49 :: uint_str u'
  | Decimal.D2 u' => 50 :: uint_str u'
  | Decimal.D3 u' => 51 :: uint_str u'
  | Decimal.D4 u' => 52 :: uint_str u'
  | Decimal.D5 u' => 53 :: uint_str u'
  | Decimal.D6 u' => 54 :: uint_str u'
  | Decimal.D7 u' => 55 :: uint_str u'
  | Decimal.D8 u' => 56 :: uint_str u'
  | Decimal.D9 u' => 57 :: uint_str u'
  end.

(** The decimal digits of [|n|]. *)
Definition digits_str (n : Z) : pystr :=
  match Z.to_int n with
  | Decimal.Pos u | Decimal.Neg u => uint_str u
  end.

Definition sign_str (negative : bool) : pystr :=
  if negative then [45] else [].

(** [str(n)] for an [int]. *)
Definition int_str (n : Z) : pystr := sign_str (n <? 0) ++ digits_str n.

(** A comma before every group of three digits, counted from the right;
    the argument is the digit string reversed. *)
Fixpoint group3 (rev_digits : pystr) : pystr :=
  match rev_digits with
  | a :: b :: c :: (_ :: _) as more => a :: b :: c :: 44 :: group3 more
  | short => short
  end.

Definition group_thousands (digits : pystr) : pystr :=
  rev (group3 (rev digits)).

(** [format(n, ',')] for an [int]. *)
Definition int_format_grouped (n : Z) : pystr :=
  sign_str (n <? 0) ++ group_thousands (digits_str n).

(** *** [float]: binary64 *)

Definition prec : Z := 53.
Definition emax : Z := 1024.

(** An integer as an unrounded operand of a correctly rounded division. *)
Definition Z_operand (n : Z) : spec_float :=
  match n with
  | Z0 => S754_zero false
  | Zpos p => S754_finite false p 0
  | Zneg p => S754_finite true p 0
  end.

(** [float(n)]: to nearest, ties to even. *)
Definition float_of_int (n : Z) : result spec_float :=
  match binary_normalize prec emax n 0 false with
  | S754_infinity _ => Raise OverflowError
  | f => Ok f
  end.

(** [a / b] for two [int]s: the quotient correctly rounded to binary64. *)
Definition int_truediv (a b : Z) : result spec_float :=
  if b =? 0 then Raise ZeroDivisionError
  else
    match SFdiv prec emax (Z_operand a) (Z_operand b) with
    | S754_infinity _ => Raise OverflowError
    | f => Ok f
    end.

(** [x / b] for a [float] and an [int]. *)
Definition float_truediv (x : spec_float) (b : Z) : result spec_float :=
  rbind (float_of_int b) (fun fb =>
  if b =? 0 then Raise ZeroDivisionError else Ok (SFdiv prec emax x fb)).

(** [x / b] where [x] was read from JSON and [b] is an [int] literal. *)
Definition py_truediv (x : json) (b : Z) : result spec_float :=
  match x with
  | JInt a => int_truediv a b
  | JBool t => int_truediv (if t then 1 else 0) b
  | JFloat f => float_truediv f b
  | JNull | JStr _ | JList _ | JDict _ => Raise TypeError
  end.

(** **** [repr] of a [float]: the shortest digits that read back *)

Definition ndigits10 (n : Z) : Z :=
  Z.of_nat (Decimal.nb_digits (Pos.to_uint (Z.to_pos n))).

(** The [k] with [10^(k-1) <= N/D < 10^k], for positive [N] and [D]. *)
Definition decimal_point (N D : Z) : Z :=
  if D <=? N then ndigits10 (N / D) else 1 - ndigits10 ((D - 1) / N).

(** Does the decimal [m * 10^q] read back as [x]? *)
Definition reads_back (x : spec_float) (m q : Z) : bool :=
  SFeqb (SFdiv prec emax (Z_operand (m * 10 ^ Z.max q 0))
                         (Z_operand (10 ^ Z.max (- q) 0))) x.

(** The [n]-digit decimals just below and above [N/D]: the nearer one
    that reads back as [x] (the even one on a tie), if any does. *)
Definition digits_candidate (x : spec_float) (N D k n : Z) : option (Z * Z) :=
  let q := k - n in
  let X := N * 10 ^ Z.max (- q) 0 in
  let Y := D * 10 ^ Z.max q 0 in
  let lo := X / Y in
  let hi := lo + 1 in
  match reads_back x lo q, reads_back x hi q with
  | true, true =>
      Some (match 2 * (X mod Y) ?= Y with
            | Lt => lo
            | Gt => hi
            | Eq => if Z.even lo then lo else hi
            end, q)
  | true, false => Some (lo, q)
  | false, true => Some (hi, q)
  | false, false => None
  end.

Fixpoint shortest_from (fuel : nat) (x : spec_float) (N D k n : Z)
  : option (Z * Z) :=
  match fuel with
  | O => None
  | S fuel' =>
      match digits_candidate x N D k n with
      | Some r => Some r
      | None => shortest_from fuel' x N D k (n + 1)
      end
  end.

Fixpoint strip_zeros (rev_digits : pystr) : pystr :=
  match rev_digits with
  | 48 :: more => strip_zeros more
  | other => other
  end.

(** The digit string and the position of the decimal point of
    [m * 2^e]: its value is [0.d1d2... * 10^decpt]. *)
Definition shortest_digits (m : positive) (e : Z) : pystr * Z :=
  let N := Zpos m * 2 ^ Z.max e 0 in
  let D := 2 ^ Z.max (- e) 0 in
  let k := decimal_point N D in
  match shortest_from 17 (S754_finite false m e) N D k 1 with
  | Some (d, q) =>
      let ds := digits_str d in
      (rev (strip_zeros (rev ds)), Z.of_nat (List.length ds) + q)
  | None => ([], k)
  end.

Definition zeros (n : Z) : pystr := repeat 48 (Z.to_nat n).

(** The exponent part: a sign and at least two digits. *)
Definition exponent_str (x : Z) : pystr :=
  [101; if x <? 0 then 45 else 43]
  ++ (if Z.abs x <? 10 then [48] else []) ++ digits_str x.

(** [repr(x)] split at the end of the integer digits: sign, integer
    digits and the rest. *)
Definition float_repr_parts (x : spec_float) : pystr * pystr * pystr :=
  match x with
  | S754_nan => ([], [], lit "nan")
  | S754_infinity s => (sign_str s, [], lit "inf")
  | S754_zero s => (sign_str s, [48], lit ".0")
  | S754_finite s m e =>
      let '(ds, decpt) := shortest_digits m e in
      let nd := Z.of_nat (List.length ds) in
      if (decpt <=? -4) || (16 <? decpt) then
        (sign_str s, firstn 1 ds,
         (if 1 <? nd then 46 :: skipn 1 ds else []) ++ exponent_str (decpt - 1))
      else if decpt <=? 0 then
        (sign_str s, [48], 46 :: zeros (- decpt) ++ ds)
      else if nd <=? decpt then
        (sign_str s, ds ++ zeros (decpt - nd), lit ".0")
      else
        (sign_str s, firstn (Z.to_nat decpt) ds,
         46 :: skipn (Z.to_nat decpt) ds)
  end.

(** [repr(x)] and [str(x)] for a [float]. *)
Definition float_repr (x : spec_float) : pystr :=
  let '(sg, int_digits, rest) := float_repr_parts x in
  sg ++ int_digits ++ rest.

(** [format(x, ',')] for a [float]. *)
Definition float_format_grouped (x : spec_float) : pystr :=
  let '(sg, int_digits, rest) := float_repr_parts x in
  sg ++ group_thousands int_digits ++ rest.

(** *** [repr] and [str] of the objects *)

Definition hex_digit (d : Z) : Z := if d <? 10 then 48 + d else 87 + d.

(** The last [width] hexadecimal digits of [n]. *)
Fixpoint hex_str (width : nat) (n : Z) : pystr :=
  match width with
  | O => []
  | S w => hex_str w (n / 16) ++ [hex_digit (n mod 16)]
  end.

Definition contains (c : Z) (s : pystr) : bool := existsb (Z.eqb c) s.

(** [sep.join(parts)]. *)
Fixpoint join (sep : pystr) (parts : list pystr) : pystr :=
  match parts with
  | [] => []
  | [p] => p
  | p :: more => p ++ sep ++ join sep more
  end.

(** [obj[start:stop]]: a [str] or a [list] is sliced, a [dict] cannot
    hash the slice (CPython 3.11), nothing else is subscriptable. *)
Definition getslice (obj : json) (start stop : option Z) : result json :=
  match obj with
  | JStr s => Ok (JStr (py_slice start stop s))
  | JList l => Ok (JList (py_slice start stop l))
  | JNull | JBool _ | JInt _ | JFloat _ | JDict _ => Raise TypeError
  end.

(** [format(v, ',')]: grouping is for numbers only. *)
Definition format_grouped (v : json) : result pystr :=
  match v with
  | JInt n => Ok (int_format_grouped n)
  | JBool b => Ok (int_format_grouped (if b then 1 else 0))
  | JFloat f => Ok (float_format_grouped f)
  | JStr _ => Raise ValueError
  | JNull | JList _ | JDict _ => Raise TypeError
  end.

Section Repr.

(** [str.isprintable] of one code point, from the Unicode character
    database; it is consulted above U+007F only. *)
Variable isprintable : Z -> bool.

Definition repr_char (quote c : Z) : pystr :=
  if (c =? quote) || (c =? 92) then [92; c]
  else if c =? 9 then [92; 116]
  else if c =? 10 then [92; 110]
  else if c =? 13 then [92; 114]
  else if (c <? 32) || (c =? 127) then 92 :: 120 :: hex_str 2 c
  else if c <? 127 then [c]
  else if isprintable c then [c]
  else if c <=? 255 then 92 :: 120 :: hex_str 2 c
  else if c <=? 65535 then 92 :: 117 :: hex_str 4 c
  else 92 :: 85 :: hex_str 8 c.

(** [repr(s)] for a [str]: double quotes only when [s] has a single
    quote and no double quote. *)
Definition str_repr (s : pystr) : pystr :=
  let quote := if contains 39 s && negb (contains 34 s) then 34 else 39 in
  quote :: flat_map (repr_char quote) s ++ [quote].

Fixpoint py_repr (v : json) : pystr :=
  match v with
  | JNull => lit "None"
  | JBool b => if b then lit "True" else lit "False"
  | JInt n => int_str n
  | JFloat f => float_repr f
  | JStr s => str_repr s
  | JList l => [91] ++ join (lit ", ") (map py_repr l) ++ [93]
  | JDict d =>
      [123]
      ++ join (lit ", ")
              (map (fun kv => str_repr (fst kv) ++ lit ": " ++ py_repr (snd kv)) d)
      ++ [125]
  end.

(** [str(v)], which is what an empty format spec gives. *)
Definition py_str (v : json) : pystr :=
  match v with
  | JStr s => s
  | other => py_repr other
  end.

End Repr.

End Py.

(** ** The script *)

Module Decoder.
Import Py.

(** *** What the script can see and change

    [files] is the text that [open(path, 'r')] followed by a full read
    gives ([None]: the file cannot be opened or read), [stdin] the text
    still to be read from standard input, [stdout] the text written so
    far.  [document] is the object built by [json.load]: the variable
    [response] of the main block and the parameter [response_json] of
    [decode_response] are two names of this one object. *)
Record world := {
  files : pystr -> option pystr;
  stdin : pystr;
  document : json;
  stdout : pystr
}.

Definition with_stdin (t : pystr) (w : world) : world :=
  {| files := files w; stdin := t; document := document w;
     stdout := stdout w |}.

Definition with_document (d : json) (w : world) : world :=
  {| files := files w; stdin := stdin w; document := d;
     stdout := stdout w |}.

Definition with_stdout (t : pystr) (w : world) : world :=
  {| files := files w; stdin := stdin w; document := document w;
     stdout := t |}.

(** A statement: it ends normally or with an exception, and leaves a
    world behind either way. *)
Definition M (A : Type) : Type := world -> result A * world.

Definition bind {A B} (m : M A) (k : A -> M B) : M B :=
  fun w =>
    match m w with
    | (Ok a, w') => k a w'
    | (Raise e, w') => (Raise e, w')
    end.

(** An expression without effects. *)
Definition eval {A} (r : result A) : M A := fun w => (r, w).

Declare Scope py_scope.
Delimit Scope py_scope with py.
Notation "x <- m ;; k" := (bind m (fun x => k))
  (at level 61, m at next level, right associativity) : py_scope.
Notation "m ;; k" := (bind m (fun _ => k))
  (at level 61, right associativity) : py_scope.
Open Scope py_scope.

(** [print(s)]: [s] and a newline; standard output is taken as a text
    stream, its encoding to bytes is left out. *)
Definition print (s : pystr) : M unit :=
  fun w => (Ok tt, with_stdout (stdout w ++ s ++ [10]) w).

(** [json.load(sys.stdin)] reads the stream to its end. *)
Definition read_stdin : M pystr :=
  fun w => (Ok (stdin w), with_stdin [] w).

(** [with open(path, 'r') as f: ... f.read() ...]. *)
Definition read_file (path : pystr) : M pystr :=
  fun w =>
    match files w path with
    | Some text => (Ok text, w)
    | None => (Raise OSError, w)
    end.

(** The assignment [response = ...] of the main block. *)
Definition assign_response (d : json) : M unit :=
  fun w => (Ok tt, with_document d w).

(** A use of the name [response_json]. *)
Definition response_json : M json := fun w => (Ok (document w), w).

(** [decode_bytes(byte_array)]: [bytes(byte_array).decode('utf-8')]. *)
Definition decode_bytes (byte_array : json) : result pystr :=
  rbind (py_bytes byte_array) bytes_decode_utf8.

Section Script.

Variable isprintable : Z -> bool.

(** [json.loads] on the text of the input; [None] stands for
    [JSONDecodeError]. *)
Variable json_loads : pystr -> option json.

Definition json_load (text : pystr) : M json :=
  eval (match json_loads text with
        | Some d => Ok d
        | None => Raise JSONDecodeError
        end).

(** [f"{signature[:32]}...{signature[-32:]}"]. *)
Definition signature_display (signature : json) : result pystr :=
  rbind (getslice signature None (Some 32)) (fun head =>
  rbind (getslice signature (Some (-32)) None) (fun tail =>
  Ok (py_str isprintable head ++ lit "..." ++ py_str isprintable tail))).

Definition rule (c : string) : pystr := concat (repeat (lit c) 60).

Definition decode_response : M unit :=
  data <- (r <- response_json ;; r <- eval (getitem r (lit "response")) ;;
           eval (getitem r (lit "data"))) ;;

  from_xid <- eval (rbind (getitem data (lit "from_xid")) decode_bytes) ;;
  to_xid <- eval (rbind (getitem data (lit "to_xid")) decode_bytes) ;;
  amount_mist <- eval (getitem data (lit "amount")) ;;
  amount_sui <- eval (py_truediv amount_mist 1000000000) ;;
  coin_type <- eval (rbind (getitem data (lit "coin_type")) decode_bytes) ;;

  timestamp_ms <- (r <- response_json ;; r <- eval (getitem r (lit "response")) ;;
                   eval (getitem r (lit "timestamp_ms"))) ;;
  intent <- (r <- response_json ;; r <- eval (getitem r (lit "response")) ;;
             eval (getitem r (lit "intent"))) ;;
  signature <- (r <- response_json ;; eval (getitem r (lit "signature"))) ;;

  print (rule "=") ;;
  print (lit "XWallet Transfer Payload (Decoded)") ;;
  print (rule "=") ;;
  print (lit "From XID:       " ++ from_xid) ;;
  print (lit "To XID:         " ++ to_xid) ;;
  (t <- eval (format_grouped amount_mist) ;;
   print (lit "Amount (MIST):  " ++ t)) ;;
  print (lit "Amount (SUI):   " ++ float_repr amount_sui) ;;
  print (lit "Coin Type:      " ++ coin_type) ;;
  print (rule "-") ;;
  print (lit "Intent:         " ++ py_str isprintable intent) ;;
  print (lit "Timestamp (ms): " ++ py_str isprintable timestamp_ms) ;;
  (t <- eval (signature_display signature) ;;
   print (lit "Signature:      " ++ t)) ;;
  print (rule "=") ;;
  print ([10] ++ lit "Ready to submit to Sui blockchain!" ++ [10]).

(** The main block, given [sys.argv]. *)
Definition main (argv : list pystr) : M unit :=
  (if 1 <? Z.of_nat (List.length argv) then
     text <- read_file (nth 1 argv []) ;;
     response <- json_load text ;;
     assign_response response
   else
     print (lit "Paste JSON response (Ctrl+D when done):") ;;
     text <- read_stdin ;;
     response <- json_load text ;;
     assign_response response) ;;
  decode_response.

End Script.

End Decoder.

(** ** The two phases of [decode_response]

    Lines 16-26 of the script only read the document; lines 28-41 only
    format and print.  [decode_response_phases] below shows that
    [decode_response] is the first phase followed by the second. *)

Module Phases.
Import Py Decoder.

Record fields := {
  from_xid : pystr;
  to_xid : pystr;
  amount_mist : json;
  amount_sui : spec_float;
  coin_type : pystr;
  timestamp_ms : json;
  intent : json;
  signature : json
}.

Definition extract (doc : json) : result fields :=
  rbind (getitem doc (lit "response")) (fun r =>
  rbind (getitem r (lit "data")) (fun data =>
  rbind (rbind (getitem data (lit "from_xid")) decode_bytes) (fun from_xid =>
  rbind (rbind (getitem data (lit "to_xid")) decode_bytes) (fun to_xid =>
  rbind (getitem data (lit "amount")) (fun amount_mist =>
  rbind (py_truediv amount_mist 1000000000) (fun amount_sui =>
  rbind (rbind (getitem data (lit "coin_type")) decode_bytes) (fun coin_type =>
  rbind (rbind (getitem doc (lit "response"))
               (fun r => getitem r (lit "timestamp_ms"))) (fun timestamp_ms =>
  rbind (rbind (getitem doc (lit "response"))
               (fun r => getitem r (lit "intent"))) (fun intent =>
  rbind (getitem doc (lit "signature")) (fun signature =>
  Ok {| from_xid := from_xid; to_xid := to_xid;
        amount_mist := amount_mist; amount_sui := amount_sui;
        coin_type := coin_type; timestamp_ms := timestamp_ms;
        intent := intent; signature := signature |})))))))))).

Definition render (isprintable : Z -> bool) (f : fields) : M unit :=
  print (rule "=") ;;
  print (lit "XWallet Transfer Payload (Decoded)") ;;
  print (rule "=") ;;
  print (lit "From XID:       " ++ from_xid f) ;;
  print (lit "To XID:         " ++ to_xid f) ;;
  (t <- eval (format_grouped (amount_mist f)) ;;
   print (lit "Amount (MIST):  " ++ t)) ;;
  print (lit "Amount (SUI):   " ++ float_repr (amount_sui f)) ;;
  print (lit "Coin Type:      " ++ coin_type f) ;;
  print (rule "-") ;;
  print (lit "Intent:         " ++ py_str isprintable (intent f)) ;;
  print (lit "Timestamp (ms): " ++ py_str isprintable (timestamp_ms f)) ;;
  (t <- eval (signature_display isprintable (signature f)) ;;
   print (lit "Signature:      " ++ t)) ;;
  print (rule "=") ;;
  print ([10] ++ lit "Ready to submit to Sui blockchain!" ++ [10]).

End Phases.

(** ** The vocabulary of the specification *)

Module Spec.
Import Py Decoder.

(** The error taxonomy of the specification (section 7) and the
    exception classes it names: a missing key or an access of the wrong
    type is a SchemaError, an undecodable byte sequence an EncodingError,
    an unreadable file an IOError, unparsable text a ParseError. *)
Inductive error_kind := IOError | ParseError | SchemaError | EncodingError.

Definition error_kind_of (e : exn) : option error_kind :=
  match e with
  | OSError => Some IOError
  | JSONDecodeError => Some ParseError
  | KeyError | TypeError => Some SchemaError
  | UnicodeDecodeError => Some EncodingError
  | ValueError | OverflowError | ZeroDivisionError => None
  end.

Definition is_byte (b : Z) : Prop := 0 <= b < 256.

(** A byte sequence is valid UTF-8 when it is the encoding of a string. *)
Definition valid_utf8 (bs : pybytes) : Prop :=
  exists s, utf8_encode s = Some bs.

(** A JSON array of integers. *)
Definition int_array (l : list Z) : json := JList (map JInt l).

(** An item that [bytes] takes for an integer: an [int] or a [bool]. *)
Definition is_integer (v : json) : bool :=
  match v with
  | JInt _ | JBool _ => true
  | _ => false
  end.

(** Text made of lines, each ended by a newline. *)
Definition unlines (ls : list pystr) : pystr :=
  flat_map (fun l => l ++ [10]) ls.

(** The document of the end-to-end example. *)
Definition example_document (signature : pystr) : json :=
  JDict
    [(lit "response",
      JDict
        [(lit "data",
          JDict [(lit "from_xid", int_array [88; 49]);
                 (lit "to_xid", int_array [88; 50]);
                 (lit "amount", JInt 1000000000);
                 (lit "coin_type", int_array [83; 85; 73])]);
         (lit "timestamp_ms", JInt 1700000000000);
         (lit "intent", JStr (lit "transfer"))]);
     (lit "signature", JStr signature)].


(** The value at the end of a path of keys, through objects only. *)
Fixpoint get_path (doc : json) (path : list pystr) : option json :=
  match path with
  | [] => Some doc
  | k :: path' =>
      match doc with
      | JDict d =>
          match dict_get k d with
          | Some v => get_path v path'
          | None => None
          end
      | _ => None
      end
  end.




Definition is_dict (v : json) : bool :=
  match v with
  | JDict _ => true
  | _ => false
  end.







(** *** Rounding

    [loc_of N D] tells where the quotient [N / D] lies between the
    integers below and above it; a shift record [tracks] a quotient when
    its mantissa is the integer below and its round and sticky bits give
    that location. *)
Definition loc_of (N D : Z) : location :=
  if N mod D =? 0 then loc_Exact else loc_Inexact (2 * (N mod D) ?= D).

Definition tracks (mrs : shr_record) (N D : Z) : Prop :=
  0 <= N /\ 0 < D /\ shr_m mrs = N / D /\ loc_of_shr_record mrs = loc_of N D.

(** [m * 2^e] is within half a unit in the last place, [2^e / 2], of the
    quotient [a / b]: this is [|m * 2^e - a / b| <= 2^e / 2] with the
    denominators multiplied out. *)
Definition half_ulp_close (m e a b : Z) : Prop :=
  2 * Z.abs (m * 2 ^ Z.max e 0 * b - a * 2 ^ Z.max (- e) 0)
  <= 2 ^ Z.max e 0 * b.

(** The binary64 number [x] is the quotient [a / b] up to the rounding of
    its representation: zero for a zero quotient, else a canonical number
    of the sign of [a] within half a unit in the last place of [a / b]. *)
Definition correctly_rounded (x : spec_float) (a b : Z) : Prop :=
  match x with
  | S754_zero _ => a = 0
  | S754_finite s m e =>
      s = (a <? 0) /\ bounded prec emax m e = true
      /\ half_ulp_close (Zpos m) e (Z.abs a) b
  | S754_infinity _ | S754_nan => False
  end.

(** A world to run examples in: no file, nothing on standard input. *)
Definition world_of (doc : json) : world :=
  {| files := fun _ => None; stdin := []; document := doc; stdout := [] |}.

(** A statement that leaves the document as it found it. *)
Definition keeps_document {A} (m : M A) : Prop :=
  forall w, document (snd (m w)) = document w.

(** A stand-in for [json.loads] that knows one text: "5" is the number
    5; and a world with two files. *)
Definition toy_json_loads (text : pystr) : option json :=
  if pystr_eqb text (lit "5") then Some (JInt 5) else None.


End Spec.

(** ** The report in general *)

Module Report.
Import Py Decoder Phases Spec.

(** What line 33 shows for the amount. *)
Definition amount_text (amount : json) : pystr :=
  match format_grouped amount with
  | Ok t => t
  | Raise _ => []
  end.

(** The first eleven lines, printed by lines 28-38 of the script. *)
Definition report_head (isprintable : Z -> bool) (f : fields) : list pystr :=
  [rule "=";
   lit "XWallet Transfer Payload (Decoded)";
   rule "=";
   lit "From XID:       " ++ from_xid f;
   lit "To XID:         " ++ to_xid f;
   lit "Amount (MIST):  " ++ amount_text (amount_mist f);
   lit "Amount (SUI):   " ++ float_repr (amount_sui f);
   lit "Coin Type:      " ++ coin_type f;
   rule "-";
   lit "Intent:         " ++ py_str isprintable (intent f);
   lit "Timestamp (ms): " ++ py_str isprintable (timestamp_ms f)].

(** The rest, printed by lines 39-41, given the abbreviated signature. *)
Definition report_tail (shown : pystr) : list pystr :=
  [lit "Signature:      " ++ shown;
   rule "=";
   [];
   lit "Ready to submit to Sui blockchain!";
   []].

(** The values that can be sliced: [str] and [list]. *)
Definition is_sliceable (v : json) : bool :=
  match v with
  | JStr _ | JList _ => true
  | _ => false
  end.

(** A Unicode scalar value: a code point that is not a surrogate. *)
Definition scalar_value (c : Z) : Prop :=
  0 <= c < 0xD800 \/ 0xE000 <= c < 0x110000.


(** The world after the prompt of line 50 and the read of line 51. *)
Definition after_prompt (w : world) : world :=
  with_stdin []
    (with_stdout
       (stdout w ++ lit "Paste JSON response (Ctrl+D when done):" ++ [10]) w).

Definition without_commas (s : pystr) : pystr :=
  filter (fun c => negb (c =? 44)) s.

(** The seven values the decoder shows, each with its path. *)
Definition leaf_paths : list (list pystr) :=
  [[lit "response"; lit "data"; lit "from_xid"];
   [lit "response"; lit "data"; lit "to_xid"];
   [lit "response"; lit "data"; lit "amount"];
   [lit "response"; lit "data"; lit "coin_type"];
   [lit "response"; lit "timestamp_ms"];
   [lit "response"; lit "intent"];
   [lit "signature"]].

Definition leaves (doc : json) : list (option json) :=
  map (get_path doc) leaf_paths.

Definition object_at (doc : json) (path : list pystr) : bool :=
  match get_path doc path with
  | Some v => is_dict v
  | None => false
  end.

(** The document, its [response] and the [data] of that are objects. *)
Definition nested_objects (doc : json) : bool :=
  object_at doc [] && object_at doc [lit "response"]
  && object_at doc [lit "response"; lit "data"].

(** The document of the example with its keys in another order and a
    key more in each object. *)
Definition reordered_document (signature : pystr) : json :=
  JDict
    [(lit "signature", JStr signature);
     (lit "version", JInt 1);
     (lit "response",
      JDict
        [(lit "intent", JStr (lit "transfer"));
         (lit "timestamp_ms", JInt 1700000000000);
         (lit "nonce", JNull);
         (lit "data",
          JDict [(lit "coin_type", int_array [83; 85; 73]);
                 (lit "amount", JInt 1000000000);
                 (lit "memo", JStr (lit "x"));
                 (lit "to_xid", int_array [88; 50]);
                 (lit "from_xid", int_array [88; 49])])])].


(** The document of the example with any value as signature, and the
    fields read from it. *)
Definition document_signed (signature : json) : json :=
  JDict
    [(lit "response",
      JDict
        [(lit "data",
          JDict [(lit "from_xid", int_array [88; 49]);
                 (lit "to_xid", int_array [88; 50]);
                 (lit "amount", JInt 1000000000);
                 (lit "coin_type", int_array [83; 85; 73])]);
         (lit "timestamp_ms", JInt 1700000000000);
         (lit "intent", JStr (lit "transfer"))]);
     (lit "signature", signature)].

Definition fields_signed (signature : json) : fields :=
  {| from_xid := lit "X1"; to_xid := lit "X2";
     amount_mist := JInt 1000000000;
     amount_sui := S754_finite false 4503599627370496 (-52);
     coin_type := lit "SUI"; timestamp_ms := JInt 1700000000000;
     intent := JStr (lit "transfer"); signature := signature |}.

End Report.

(** * Properties *)

(** ** The runtime model on sample values *)

Module Samples.
Import Py.

Example utf8_decode_surrogate : utf8_decode [0xED; 0xA0; 0x80] = None.
Proof. reflexivity. Qed.

Example utf8_decode_overlong : utf8_decode [0xC0; 0x80] = None.
Proof. reflexivity. Qed.

Example utf8_decode_too_large : utf8_decode [0xF4; 0x90; 0x80; 0x80] = None.
Proof. reflexivity. Qed.

Example utf8_decode_euro : utf8_decode [0xE2; 0x82; 0xAC] = Some [0x20AC].
Proof. reflexivity. Qed.

Example truediv_one_mist :
  int_truediv 1 1000000000
  = Ok (S754_finite false 4835703278458517 (-82)).
Proof. vm_compute. reflexivity. Qed.

Example truediv_overflow :
  int_truediv (10 ^ 400) 1000000000 = Raise OverflowError.
Proof. vm_compute. reflexivity. Qed.

Example repr_one_mist :
  float_repr (S754_finite false 4835703278458517 (-82)) = lit "1e-09".
Proof. vm_compute. reflexivity. Qed.

Example repr_tenth :
  float_repr (S754_finite false 7205759403792794 (-56)) = lit "0.1".
Proof. vm_compute. reflexivity. Qed.

Example repr_tie_to_even :
  float_repr (S754_finite false 4503599627370497 (-2))
  = lit "1125899906842624.2".
Proof. vm_compute. reflexivity. Qed.

Example repr_exponent :
  float_repr (S754_finite false 5000000000000000 1) = lit "1e+16".
Proof. vm_compute. reflexivity. Qed.

Example grouped_negative_int :
  int_format_grouped (-1234567) = lit "-1,234,567".
Proof. vm_compute. reflexivity. Qed.

Example grouped_float :
  float_format_grouped (S754_finite false 5302428716536693 (-32))
  = lit "1,234,567.891".
Proof. vm_compute. reflexivity. Qed.

Example str_of_nested_value :
  py_str (fun _ => true)
    (JDict [(lit "type", JStr (lit "transfer"));
            (lit "n", JList [JInt 1; JNull; JBool true])])
  = lit "{'type': 'transfer', 'n': [1, None, True]}".
Proof. vm_compute. reflexivity. Qed.

Example slice_of_short_string :
  py_slice (Some (-32)) None (lit "AB") = lit "AB".
Proof. reflexivity. Qed.

End Samples.

(** ** The UTF-8 codec *)

Module Utf8Facts.
Import Py Decoder Spec.

#[local] Opaque Z.add Z.mul Z.sub Z.div Z.modulo Z.ltb Z.leb Z.eqb.

(** Decide every comparison in the goal from the hypotheses. *)
Ltac zcmp :=
  repeat match goal with
  | |- context [?a <? ?b] =>
      destruct (Z.ltb_spec a b); try (exfalso; Z.div_mod_to_equations; lia)
  | |- context [?a <=? ?b] =>
      destruct (Z.leb_spec a b); try (exfalso; Z.div_mod_to_equations; lia)
  | |- context [?a =? ?b] =>
      destruct (Z.eqb_spec a b); try (exfalso; Z.div_mod_to_equations; lia)
  end.

(** Turn a boolean hypothesis on integers into inequalities. *)
Ltac bool_hyp E :=
  rewrite ?andb_true_iff, ?negb_true_iff, ?andb_false_iff, ?Z.ltb_lt,
    ?Z.leb_le, ?Z.eqb_eq, ?Z.ltb_ge, ?Z.leb_gt, ?Z.eqb_neq in E.

Ltac encode_char :=
  unfold utf8_encode_char; zcmp; cbn [andb]; repeat f_equal;
  Z.div_mod_to_equations; lia.

Lemma utf8_decode_encode_char (c : Z) (b rest : pybytes) :
  utf8_encode_char c = Some b ->
  utf8_decode (b ++ rest) = option_map (cons c) (utf8_decode rest).
Proof.
  unfold utf8_encode_char.
  destruct (Z.ltb_spec c 0); [discriminate|].
  destruct (Z.ltb_spec c 0x80).
  { intros [= <-]. cbn [app utf8_decode]. zcmp. reflexivity. }
  destruct (Z.ltb_spec c 0x800).
  { intros [= <-]. cbn [app utf8_decode]. unfold is_continuation. zcmp.
    cbn [andb]. do 2 f_equal. Z.div_mod_to_equations; lia. }
  destruct (Z.ltb_spec c 0x10000).
  { destruct (Z.leb_spec 0xD800 c); destruct (Z.ltb_spec c 0xE000);
      cbn [andb]; try discriminate; intros [= <-]; cbn [app utf8_decode];
      unfold is_continuation; zcmp; cbn [andb negb]; do 2 f_equal;
      Z.div_mod_to_equations; lia. }
  destruct (Z.ltb_spec c 0x110000); [|discriminate].
  intros [= <-]; cbn [app utf8_decode]; unfold is_continuation; zcmp;
    cbn [andb negb]; do 2 f_equal; Z.div_mod_to_equations; lia.
Qed.

Lemma utf8_decode_encode (s : pystr) : forall bs,
  utf8_encode s = Some bs -> utf8_decode bs = Some s.
Proof.
  induction s as [|c s IH]; intros bs; cbn [utf8_encode].
  - intros [= <-]. reflexivity.
  - destruct (utf8_encode_char c) as [b|] eqn:Ec; [|discriminate].
    destruct (utf8_encode s) as [bs'|]; [|discriminate].
    intros [= <-].
    rewrite (utf8_decode_encode_char _ _ _ Ec), (IH _ eq_refl). reflexivity.
Qed.

Lemma utf8_encode_char_bytes (c : Z) (b : pybytes) :
  utf8_encode_char c = Some b -> Forall is_byte b.
Proof.
  unfold utf8_encode_char, is_byte.
  destruct (Z.ltb_spec c 0); [discriminate|].
  destruct (Z.ltb_spec c 0x80).
  { intros [= <-]. repeat constructor; lia. }
  destruct (Z.ltb_spec c 0x800).
  { intros [= <-]. repeat constructor; Z.div_mod_to_equations; lia. }
  destruct (Z.ltb_spec c 0x10000).
  { destruct (_ && _); [discriminate|]. intros [= <-].
    repeat constructor; Z.div_mod_to_equations; lia. }
  destruct (Z.ltb_spec c 0x110000); [|discriminate].
  intros [= <-]. repeat constructor; Z.div_mod_to_equations; lia.
Qed.

Lemma utf8_encode_bytes (s : pystr) : forall bs,
  utf8_encode s = Some bs -> Forall is_byte bs.
Proof.
  induction s as [|c s IH]; intros bs; cbn [utf8_encode].
  - intros [= <-]. constructor.
  - destruct (utf8_encode_char c) as [b|] eqn:Ec; [|discriminate].
    destruct (utf8_encode s) as [bs'|]; [|discriminate].
    intros [= <-]. apply Forall_app. split.
    + exact (utf8_encode_char_bytes _ _ Ec).
    + exact (IH _ eq_refl).
Qed.

(** Whatever the decoder accepts is the encoding of what it returns. *)
Lemma utf8_encode_decode_upto (n : nat) : forall bs s,
  (List.length bs <= n)%nat -> Forall is_byte bs ->
  utf8_decode bs = Some s -> utf8_encode s = Some bs.
Proof.
  unfold is_byte.
  induction n as [|n IH]; intros bs s Hlen Hb.
  - destruct bs; [|cbn in Hlen; lia]. intros [= <-]. reflexivity.
  - destruct bs as [|ch r1]; [intros [= <-]; reflexivity|].
    cbn [List.length] in Hlen. inversion Hb as [|? ? Hch Hr1]; subst.
    cbn [utf8_decode].
    destruct (Z.ltb_spec ch 0x80).
    { destruct (utf8_decode r1) as [s1|] eqn:E1; [|discriminate].
      intros [= <-]. cbn [utf8_encode].
      rewrite (IH r1 s1) by (auto; lia).
      replace (utf8_encode_char ch) with (Some [ch]) by encode_char.
      reflexivity. }
    destruct (Z.ltb_spec ch 0xC2); [discriminate|].
    destruct (Z.ltb_spec ch 0xE0).
    { destruct r1 as [|ch2 r2]; [discriminate|].
      unfold is_continuation.
      destruct (_ && _) eqn:E; [|discriminate]. bool_hyp E.
      destruct (utf8_decode r2) as [s2|] eqn:E2; [|discriminate].
      intros [= <-]. cbn [utf8_encode]. cbn [List.length] in Hlen.
      rewrite (IH r2 s2) by (try lia; auto; inversion Hr1; auto).
      match goal with |- context [utf8_encode_char ?c] =>
        replace (utf8_encode_char c) with (Some [ch; ch2]) by encode_char
      end.
      reflexivity. }
    destruct (Z.ltb_spec ch 0xF0).
    { destruct r1 as [|ch2 [|ch3 r3]]; try discriminate.
      unfold is_continuation.
      destruct (_ && _) eqn:E; [|discriminate]. bool_hyp E.
      destruct (utf8_decode r3) as [s3|] eqn:E3; [|discriminate].
      intros [= <-]. cbn [utf8_encode]. cbn [List.length] in Hlen.
      rewrite (IH r3 s3)
        by (try lia; auto; inversion Hr1 as [|? ? ? Hr2]; inversion Hr2; auto).
      match goal with |- context [utf8_encode_char ?c] =>
        replace (utf8_encode_char c) with (Some [ch; ch2; ch3])
          by encode_char
      end.
      reflexivity. }
    destruct (Z.ltb_spec ch 0xF5); [|discriminate].
    destruct r1 as [|ch2 [|ch3 [|ch4 r4]]]; try discriminate.
    unfold is_continuation.
    destruct (_ && _) eqn:E; [|discriminate]. bool_hyp E.
    destruct (utf8_decode r4) as [s4|] eqn:E4; [|discriminate].
    intros [= <-]. cbn [utf8_encode]. cbn [List.length] in Hlen.
    rewrite (IH r4 s4)
      by (try lia; auto; inversion Hr1 as [|? ? ? Hr2];
          inversion Hr2 as [|? ? ? Hr3]; inversion Hr3; auto).
    match goal with |- context [utf8_encode_char ?c] =>
      replace (utf8_encode_char c) with (Some [ch; ch2; ch3; ch4])
        by encode_char
    end.
    reflexivity.
Qed.

Lemma utf8_encode_decode (bs : pybytes) (s : pystr) :
  Forall is_byte bs -> utf8_decode bs = Some s -> utf8_encode s = Some bs.
Proof. apply (utf8_encode_decode_upto (List.length bs)). lia. Qed.

(** [bytes] of an array of byte values is that sequence of bytes. *)
Lemma py_bytes_int_array (bs : list Z) :
  Forall is_byte bs -> py_bytes (int_array bs) = Ok bs.
Proof.
  unfold int_array, py_bytes, is_byte.
  induction 1 as [|b bs Hb _ IH]; cbn [map bytes_of_items]; [reflexivity|].
  rewrite IH. unfold byte_of_item. zcmp. reflexivity.
Qed.

End Utf8Facts.

(** ** [decode_bytes] *)

Module DecodeBytesFacts.
Import Py Decoder Spec Utf8Facts.

(** C3. For every string [s], encoding [s] to its UTF-8 byte values and
    applying [decode_bytes] to that sequence gives [s] back. *)
Theorem C3_decode_bytes_round_trip (s : pystr) (bs : pybytes) :
  utf8_encode s = Some bs ->
  decode_bytes (int_array bs) = Ok s.
Proof.
  intros Henc. unfold decode_bytes.
  rewrite (py_bytes_int_array bs) by exact (utf8_encode_bytes _ _ Henc).
  cbn [rbind]. unfold bytes_decode_utf8.
  rewrite (utf8_decode_encode _ _ Henc). reflexivity.
Qed.

(** The string "hé€😀" (one code point of each encoded length) comes
    back from its eight bytes. *)
Lemma C3_witness :
  utf8_encode [104; 233; 8364; 128512]
  = Some [104; 195; 169; 226; 130; 172; 240; 159; 152; 128]
  /\ decode_bytes (int_array [104; 195; 169; 226; 130; 172; 240; 159; 152; 128])
     = Ok [104; 233; 8364; 128512].
Proof.
  split; [reflexivity|].
  apply (C3_decode_bytes_round_trip [104; 233; 8364; 128512]). reflexivity.
Defined.

(** C5. For every byte sequence that is not valid UTF-8, [decode_bytes]
    fails with the EncodingError-kind condition, [UnicodeDecodeError]. *)
Theorem C5_decode_bytes_invalid_utf8 (bs : pybytes) :
  Forall is_byte bs ->
  ~ valid_utf8 bs ->
  decode_bytes (int_array bs) = Raise UnicodeDecodeError
  /\ error_kind_of UnicodeDecodeError = Some EncodingError.
Proof.
  intros Hb Hinv. split; [|reflexivity]. unfold decode_bytes.
  rewrite (py_bytes_int_array bs Hb). cbn [rbind]. unfold bytes_decode_utf8.
  destruct (utf8_decode bs) as [s|] eqn:E; [|reflexivity].
  exfalso. apply Hinv. exists s. exact (utf8_encode_decode _ _ Hb E).
Qed.

Lemma lone_continuation_invalid : ~ valid_utf8 [128].
Proof.
  intros [s Hs]. apply utf8_decode_encode in Hs. discriminate Hs.
Qed.

(** A lone continuation byte 0x80. *)
Lemma C5_witness :
  decode_bytes (int_array [128]) = Raise UnicodeDecodeError
  /\ error_kind_of UnicodeDecodeError = Some EncodingError.
Proof.
  apply (C5_decode_bytes_invalid_utf8 [128]).
  - repeat constructor; unfold is_byte; lia.
  - exact lone_continuation_invalid.
Defined.

(** C9, as stated, fails on [["a", 300]]: the list contains the integer
    300, yet [bytes] stops at the string before it with a [TypeError],
    which is not a value-range error. *)
Lemma C9_counterexample :
  In (JInt 300) [JStr (lit "a"); JInt 300]
  /\ decode_bytes (JList [JStr (lit "a"); JInt 300]) = Raise TypeError
  /\ TypeError <> ValueError.
Proof.
  split; [right; left; reflexivity|]. split; [reflexivity|discriminate].
Qed.

(** C9, amended. For every input list in which an integer below 0 or
    above 255 is preceded by integers (or booleans) only, [decode_bytes]
    fails in [bytes], before any UTF-8 decoding, with [ValueError], which
    is not the EncodingError-kind condition; what follows the offending
    element does not matter. *)
Theorem C9_decode_bytes_value_range (before after : list json) (n : Z) :
  forallb is_integer before = true ->
  n < 0 \/ 255 < n ->
  py_bytes (JList (before ++ JInt n :: after)) = Raise ValueError
  /\ decode_bytes (JList (before ++ JInt n :: after)) = Raise ValueError
  /\ ValueError <> UnicodeDecodeError
  /\ error_kind_of ValueError <> Some EncodingError.
Proof.
  intros Hint Hn.
  assert (H : py_bytes (JList (before ++ JInt n :: after)) = Raise ValueError).
  { cbn [py_bytes]. induction before as [|v before IH]; cbn [app bytes_of_items].
    - unfold byte_of_item.
      destruct (Z.leb_spec 0 n); destruct (Z.ltb_spec n 256);
        cbn [andb rbind]; try reflexivity; lia.
    - cbn [forallb] in Hint. apply andb_true_iff in Hint as [Hv Hrest].
      rewrite (IH Hrest).
      destruct v; try discriminate Hv; unfold byte_of_item.
      + reflexivity.
      + destruct (_ && _); reflexivity. }
  split; [exact H|]. split; [|split; discriminate].
  unfold decode_bytes. rewrite H. reflexivity.
Qed.

(** [[72, True, 300, "x"]]: the 300 is reached and refused. *)
Lemma C9_witness :
  decode_bytes (JList [JInt 72; JBool true; JInt 300; JStr (lit "x")])
  = Raise ValueError.
Proof.
  apply (C9_decode_bytes_value_range [JInt 72; JBool true] [JStr (lit "x")] 300).
  - reflexivity.
  - lia.
Defined.

End DecodeBytesFacts.

(** ** True division is correctly rounded *)

Module TrueDivFacts.
Import Py Decoder Spec.

(** [digits2_pos p] is the number of binary digits of [p]. *)
Lemma digits2_pos_bounds (p : positive) :
  2 ^ (Zpos (digits2_pos p) - 1) <= Zpos p < 2 ^ Zpos (digits2_pos p).
Proof.
  induction p as [p IH|p IH|]; cbn [digits2_pos].
  - rewrite Pos2Z.inj_succ, Z.pow_succ_r by lia.
    replace (Z.succ (Zpos (digits2_pos p)) - 1)
      with (Z.succ (Zpos (digits2_pos p) - 1)) by lia.
    rewrite Z.pow_succ_r by lia. lia.
  - rewrite Pos2Z.inj_succ, Z.pow_succ_r by lia.
    replace (Z.succ (Zpos (digits2_pos p)) - 1)
      with (Z.succ (Zpos (digits2_pos p) - 1)) by lia.
    rewrite Z.pow_succ_r by lia. lia.
  - cbn. lia.
Qed.

Lemma Zdigits2_bounds (m : Z) :
  0 < m -> 2 ^ (Zdigits2 m - 1) <= m < 2 ^ Zdigits2 m.
Proof.
  destruct m as [|p|p]; try lia. intros _. apply digits2_pos_bounds.
Qed.

Lemma Zdigits2_unique (m d : Z) :
  2 ^ (d - 1) <= m < 2 ^ d -> 0 < d -> Zdigits2 m = d.
Proof.
  intros [Hlo Hhi] Hd.
  assert (Hm : 0 < m) by (pose proof (Z.pow_pos_nonneg 2 (d - 1)); lia).
  pose proof (Zdigits2_bounds m Hm) as [Hlo' Hhi'].
  assert (Hpos : 0 < Zdigits2 m) by (destruct m; cbn; lia).
  destruct (Z.lt_trichotomy (Zdigits2 m) d) as [Hlt|[Heq|Hgt]]; [|exact Heq|].
  - assert (2 ^ Zdigits2 m <= 2 ^ (d - 1)) by (apply Z.pow_le_mono_r; lia). lia.
  - assert (2 ^ d <= 2 ^ (Zdigits2 m - 1)) by (apply Z.pow_le_mono_r; lia). lia.
Qed.

Lemma tracks_of_loc (N D : Z) :
  0 <= N -> 0 < D -> tracks (shr_record_of_loc (N / D) (loc_of N D)) N D.
Proof.
  intros HN HD. unfold tracks. repeat split; try assumption.
  - destruct (loc_of N D) as [|[]]; reflexivity.
  - destruct (loc_of N D) as [|[]]; reflexivity.
Qed.

(** Settle a comparison of the goal as [c]. *)
Ltac cmp_is c :=
  match goal with
  | |- context [?x =? 0] =>
      replace (x =? 0) with false by (symmetry; apply Z.eqb_neq; lia)
  end;
  match goal with
  | |- context [?x ?= ?y] =>
      replace (x ?= y) with c
        by (symmetry;
            first [apply Z.compare_eq_iff | apply Z.compare_lt_iff
                  | apply Z.compare_gt_iff]; lia)
  end; reflexivity.

(** One case of [shr_1]: the mantissa is [2 * q + b]. *)
Ltac shr_case q b :=
  match goal with
  | Hdm : forall p b, _ = 2 * p + b -> _, Hs : orb _ _ = _ |- _ =>
      destruct (Hdm q b ltac:(lia) ltac:(lia)) as [-> ->];
      split; [reflexivity|]; rewrite Hs;
      match goal with
      | |- context [negb (?r0 =? 0)] =>
          destruct (Z.eqb_spec r0 0) as [Hz|Hz]; cbn [negb];
          [ try rewrite Hz; try (rewrite Z.add_0_r; rewrite ?Z.mul_1_l);
            first [reflexivity | cmp_is Eq]
          | first [cmp_is Lt | cmp_is Gt] ]
      end
  end.

(** One shift to the right halves the tracked quotient. *)
Lemma shr_1_tracks (mrs : shr_record) (N D : Z) :
  tracks mrs N D -> tracks (shr_1 mrs) N (2 * D).
Proof.
  intros (HN & HD & Hm & Hloc). destruct mrs as [m r s]. cbn [shr_m] in Hm.
  unfold loc_of in Hloc. unfold tracks, loc_of.
  pose proof (Z.div_mod N D ltac:(lia)) as HND.
  pose proof (Z.mod_pos_bound N D HD) as Hr.
  set (r0 := N mod D) in *. rewrite <- Hm in HND. clear Hm.
  assert (Hs : orb r s = negb (r0 =? 0)).
  { destruct (Z.eqb_spec r0 0); destruct r, s; cbn in Hloc |- *; congruence. }
  clear Hloc.
  assert (Hdm : forall p b, m = 2 * p + b -> 0 <= b < 2 ->
            N / (2 * D) = p /\ N mod (2 * D) = b * D + r0).
  { intros p b -> Hb.
    assert (N = (2 * D) * p + (b * D + r0)) by lia.
    split; symmetry.
    - apply Z.div_unique_pos with (b * D + r0); [nia|assumption].
    - apply Z.mod_unique_pos with p; [nia|assumption]. }
  split; [assumption|]. split; [lia|].
  assert (Hm0 : 0 <= m) by nia.
  destruct m as [|[p|p|]|]; try lia; cbn [shr_1 shr_m loc_of_shr_record].
  - shr_case 0 0.
  - shr_case (Zpos p) 1.
  - shr_case (Zpos p) 0.
  - shr_case 0 1.
Qed.

Lemma iter_pos_shr_1_tracks (p : positive) : forall mrs N D,
  tracks mrs N D -> tracks (iter_pos shr_1 p mrs) N (D * 2 ^ Zpos p).
Proof.
  induction p as [p IH|p IH|]; intros mrs N D H; cbn [iter_pos].
  - apply shr_1_tracks in H. apply IH in H. apply IH in H.
    replace (D * 2 ^ Zpos p~1) with (2 * D * 2 ^ Zpos p * 2 ^ Zpos p); [exact H|].
    replace (Zpos p~1) with (Zpos p + Zpos p + 1) by lia.
    rewrite !Z.pow_add_r, Z.pow_1_r by lia. ring.
  - apply IH in H. apply IH in H.
    replace (D * 2 ^ Zpos p~0) with (D * 2 ^ Zpos p * 2 ^ Zpos p); [exact H|].
    replace (Zpos p~0) with (Zpos p + Zpos p) by lia.
    rewrite !Z.pow_add_r by lia. ring.
  - apply shr_1_tracks in H. replace (D * 2 ^ 1) with (2 * D) by lia. exact H.
Qed.

(** Rounding a tracked quotient gives an integer at most one half away
    from it. *)
Lemma round_nearest_even_close (mrs : shr_record) (N D : Z) :
  tracks mrs N D ->
  let m1 := round_nearest_even (shr_m mrs) (loc_of_shr_record mrs) in
  (m1 = N / D \/ m1 = N / D + 1) /\ 2 * Z.abs (m1 * D - N) <= D.
Proof.
  intros (HN & HD & Hm & Hloc). rewrite Hloc, Hm. unfold loc_of.
  pose proof (Z.div_mod N D ltac:(lia)) as HND.
  pose proof (Z.mod_pos_bound N D HD) as Hr.
  set (r0 := N mod D) in *. set (q := N / D) in *.
  destruct (Z.eqb_spec r0 0); cbn [round_nearest_even].
  - split; [left; reflexivity|]. nia.
  - destruct (Z.compare_spec (2 * r0) D); cbn [round_nearest_even].
    + destruct (Z.even q); (split; [auto|nia]).
    + split; [auto|nia].
    + split; [auto|nia].
Qed.

(** The location that the division computes from the remainder. *)
Lemma new_location_loc_of (b r : Z) :
  0 < b -> 0 <= r < b ->
  new_location b r
  = if r =? 0 then loc_Exact else loc_Inexact (2 * r ?= b).
Proof.
  intros Hb Hr. unfold new_location, new_location_even, new_location_odd.
  destruct (Z.even b) eqn:Eb; [reflexivity|].
  destruct (Z.eqb_spec r 0); [reflexivity|]. f_equal.
  assert (Hodd : Z.odd b = true) by (rewrite <- Z.negb_even, Eb; reflexivity).
  apply Z.odd_spec in Hodd as [k Hk].
  destruct (Z.compare_spec (2 * r + 1) b);
    symmetry; first [apply Z.compare_lt_iff | apply Z.compare_gt_iff]; lia.
Qed.

(** Away from the subnormal range the exponent leaves 53 digits. *)
Lemma fexp_normal (x : Z) : -1021 <= x -> fexp prec emax x = x - 53.
Proof. intros H. unfold fexp, emin, prec, emax. lia. Qed.

(** The division proper: the numerator is scaled by [2^-e'] so that the
    integer quotient has at least 53 digits. *)
Lemma SFdiv_core_binary_spec (pa pb : positive) :
  let e' := Z.min (fexp prec emax (Zdigits2 (Zpos pa) - Zdigits2 (Zpos pb))) 0 in
  let N := Zpos pa * 2 ^ (- e') in
  SFdiv_core_binary prec emax (Zpos pa) 0 (Zpos pb) 0
  = (N / Zpos pb, e', loc_of N (Zpos pb)).
Proof.
  intros e' N. unfold SFdiv_core_binary.
  rewrite !Z.add_0_r, !Z.sub_0_r. fold e'.
  assert (He : e' <= 0) by (subst e'; lia).
  replace (0 - e') with (- e') by lia.
  assert (Hm : match - e' with
               | 0 => Zpos pa
               | Zpos _ => Z.shiftl (Zpos pa) (- e')
               | Zneg _ => 0
               end = N).
  { subst N. clearbody e'. remember (- e') as s eqn:Es.
    destruct s; try lia.
    rewrite Z.shiftl_mul_pow2 by lia. reflexivity. }
  rewrite Hm.
  pose proof (Z.mod_pos_bound N (Zpos pb) ltac:(lia)) as Hr.
  unfold loc_of. rewrite <- new_location_loc_of by lia.
  unfold Z.div, Z.modulo. destruct (Z.div_eucl N (Zpos pb)). reflexivity.
Qed.

(** The first shift of the rounding leaves a mantissa of exactly 53
    digits. *)
Lemma shr_fexp_first (N D e : Z) :
  0 <= N -> 0 < D -> 2 ^ 52 <= N / D -> -1021 <= e ->
  exists mrs' n,
    shr_fexp prec emax (N / D) e (loc_of N D) = (mrs', e + n)
    /\ 0 <= n /\ tracks mrs' N (D * 2 ^ n)
    /\ 2 ^ 52 <= shr_m mrs' < 2 ^ 53.
Proof.
  intros HN HD Hq He. unfold shr_fexp.
  pose proof (Zdigits2_bounds (N / D) ltac:(lia)) as [Hlo Hhi].
  set (dq := Zdigits2 (N / D)) in *.
  assert (Hdq : 53 <= dq).
  { destruct (Z.le_gt_cases 53 dq) as [|Hlt]; [assumption|].
    assert (2 ^ dq <= 2 ^ 52) by (apply Z.pow_le_mono_r; lia). lia. }
  rewrite fexp_normal by lia.
  replace (dq + e - 53 - e) with (dq - 53) by lia.
  pose proof (tracks_of_loc N D HN HD) as Ht.
  unfold shr. destruct (dq - 53) as [|p|p] eqn:En; try lia.
  - exists (shr_record_of_loc (N / D) (loc_of N D)), 0.
    rewrite Z.add_0_r, Z.pow_0_r, Z.mul_1_r.
    split; [reflexivity|]. split; [lia|]. split; [exact Ht|].
    destruct Ht as (_ & _ & -> & _). replace dq with 53 in * by lia. lia.
  - exists (iter_pos shr_1 p (shr_record_of_loc (N / D) (loc_of N D))), (Zpos p).
    split; [reflexivity|]. split; [lia|].
    pose proof (iter_pos_shr_1_tracks p _ _ _ Ht) as Ht'.
    split; [exact Ht'|].
    destruct Ht' as (_ & _ & -> & _).
    rewrite <- Z.div_div by lia.
    replace dq with (53 + Zpos p) in * by lia.
    assert (Hp : 0 < 2 ^ Zpos p) by (apply Z.pow_pos_nonneg; lia).
    replace (53 + Zpos p - 1) with (52 + Zpos p) in Hlo by lia.
    rewrite Z.pow_add_r in Hlo, Hhi by lia.
    split.
    + apply Z.div_le_lower_bound; lia.
    + apply Z.div_lt_upper_bound; lia.
Qed.

(** Rounding a quotient of at least 53 digits: the result is canonical
    and at most half a unit of its last place away. *)
Lemma binary_round_aux_close (s : bool) (N D e : Z) :
  0 <= N -> 0 < D -> 2 ^ 52 <= N / D -> -1021 <= e ->
  match binary_round_aux prec emax s (N / D) e (loc_of N D) with
  | S754_finite s' m e2 =>
      s' = s /\ bounded prec emax m e2 = true
      /\ exists n, 0 <= n /\ e2 = e + n
                   /\ 2 * Z.abs (Zpos m * (D * 2 ^ n) - N) <= D * 2 ^ n
  | S754_infinity _ => True
  | _ => False
  end.
Proof.
  intros HN HD Hq He. unfold binary_round_aux.
  destruct (shr_fexp_first N D e HN HD Hq He)
    as (mrs' & n & -> & Hn & Ht & Hm0).
  pose proof (round_nearest_even_close mrs' _ _ Ht) as [Hm1 Hclose].
  destruct Ht as (_ & HD' & Hm & _). rewrite <- Hm in Hm1.
  set (m1 := round_nearest_even (shr_m mrs') (loc_of_shr_record mrs')) in *.
  unfold shr_fexp.
  destruct (Z.eq_dec m1 (2 ^ 53)) as [Hcarry|Hnocarry].
  - rewrite Hcarry.
    replace (Zdigits2 (2 ^ 53)) with 54 by reflexivity.
    rewrite fexp_normal by lia.
    replace (54 + (e + n) - 53 - (e + n)) with 1 by lia.
    cbn [shr_record_of_loc shr iter_pos]. 
    change (shr_m (shr_1 {| shr_m := 2 ^ 53; shr_r := false; shr_s := false |}))
      with (2 ^ 52).
    change (2 ^ 52) with (Zpos (Z.to_pos (2 ^ 52))).
    destruct (Z.leb_spec (e + n + 1) (emax - prec)); [|exact I].
    split; [reflexivity|]. split.
    + unfold bounded, canonical_mantissa.
      change (Zpos (digits2_pos (Z.to_pos (2 ^ 52)))) with 53.
      rewrite fexp_normal by lia.
      apply andb_true_iff. split; [apply Z.eqb_eq; lia|apply Z.leb_le; lia].
    + exists (n + 1). split; [lia|]. split; [lia|].
      rewrite Hcarry in Hclose.
      rewrite Z.pow_add_r, Z.pow_1_r by lia.
      change (Zpos (Z.to_pos (2 ^ 52))) with (2 ^ 52).
      assert (0 < 2 ^ n) by (apply Z.pow_pos_nonneg; lia).
      nia.
  - assert (Hr : 2 ^ 52 <= m1 < 2 ^ 53) by lia.
    rewrite (Zdigits2_unique m1 53) by lia.
    rewrite fexp_normal by lia.
    replace (53 + (e + n) - 53 - (e + n)) with 0 by lia.
    cbn [shr]. 
    replace (shr_m (shr_record_of_loc m1 loc_Exact)) with m1 by reflexivity.
    destruct m1 as [|pm|pm] eqn:Em1; try lia.
    destruct (Z.leb_spec (e + n) (emax - prec)); [|exact I].
    split; [reflexivity|]. split.
    + unfold bounded, canonical_mantissa.
      change (Zpos (digits2_pos pm)) with (Zdigits2 (Zpos pm)).
      rewrite (Zdigits2_unique (Zpos pm) 53) by lia.
      rewrite fexp_normal by lia.
      apply andb_true_iff. split; [apply Z.eqb_eq; lia|apply Z.leb_le; lia].
    + exists n. split; [lia|]. split; [lia|]. exact Hclose.
Qed.

(** The same bound with the powers of two put on the right sides. *)
Lemma close_rescale (m a b n s' : Z) :
  0 < b -> 0 <= n -> 0 <= s' ->
  2 * Z.abs (m * (b * 2 ^ n) - a * 2 ^ s') <= b * 2 ^ n ->
  half_ulp_close m (n - s') a b.
Proof.
  intros Hb Hn Hs H. unfold half_ulp_close.
  destruct (Z.le_ge_cases s' n) as [Hle|Hge].
  - replace (Z.max (n - s') 0) with (n - s') by lia.
    replace (Z.max (- (n - s')) 0) with 0 by lia.
    rewrite Z.pow_0_r, Z.mul_1_r.
    assert (HX : 0 < 2 ^ s') by (apply Z.pow_pos_nonneg; lia).
    assert (HP : 0 < 2 ^ (n - s')) by (apply Z.pow_pos_nonneg; lia).
    replace (2 ^ n) with (2 ^ (n - s') * 2 ^ s') in H
      by (rewrite <- Z.pow_add_r by lia; f_equal; lia).
    set (P := 2 ^ (n - s')) in *. set (X := 2 ^ s') in *.
    replace (m * (b * (P * X)) - a * X) with ((m * P * b - a) * X) in H by ring.
    rewrite Z.abs_mul, (Z.abs_eq X) in H by lia.
    apply (Z.mul_le_mono_pos_r _ _ X HX). lia.
  - replace (Z.max (n - s') 0) with 0 by lia.
    replace (Z.max (- (n - s')) 0) with (s' - n) by lia.
    rewrite Z.pow_0_r, Z.mul_1_r, Z.mul_1_l.
    assert (HX : 0 < 2 ^ n) by (apply Z.pow_pos_nonneg; lia).
    replace (2 ^ s') with (2 ^ (s' - n) * 2 ^ n) in H
      by (rewrite <- Z.pow_add_r by lia; f_equal; lia).
    set (Q := 2 ^ (s' - n)) in *. set (X := 2 ^ n) in *.
    replace (m * (b * X) - a * (Q * X)) with ((m * b - a * Q) * X) in H by ring.
    rewrite Z.abs_mul, (Z.abs_eq X) in H by lia.
    apply (Z.mul_le_mono_pos_r _ _ X HX). lia.
Qed.

(** The quotient of two integers given as unrounded operands. *)
Lemma SFdiv_operands_close (sa : bool) (pa pb : positive) :
  Zdigits2 (Zpos pb) <= 900 ->
  match SFdiv prec emax (S754_finite sa pa 0) (S754_finite false pb 0) with
  | S754_finite s m e =>
      s = sa /\ bounded prec emax m e = true
      /\ half_ulp_close (Zpos m) e (Zpos pa) (Zpos pb)
  | S754_infinity _ => True
  | _ => False
  end.
Proof.
  intros Hd2. cbn [SFdiv]. rewrite SFdiv_core_binary_spec. cbv zeta.
  rewrite xorb_false_r.
  pose proof (Zdigits2_bounds (Zpos pa) ltac:(lia)) as [Ha _].
  pose proof (Zdigits2_bounds (Zpos pb) ltac:(lia)) as [_ Hb].
  set (d1 := Zdigits2 (Zpos pa)) in *. set (d2 := Zdigits2 (Zpos pb)) in *.
  assert (Hd1 : 1 <= d1) by (subst d1; cbn; lia).
  assert (Hd2' : 1 <= d2) by (subst d2; cbn; lia).
  rewrite fexp_normal by lia.
  set (e' := Z.min (d1 - d2 - 53) 0).
  assert (He' : -1021 <= e' <= 0) by (subst e'; lia).
  set (N := Zpos pa * 2 ^ (- e')).
  assert (HX : 0 < 2 ^ (- e')) by (apply Z.pow_pos_nonneg; lia).
  assert (Hq : 2 ^ 52 <= N / Zpos pb).
  { apply Z.div_le_lower_bound; [lia|].
    assert (2 ^ (52 + d2) <= 2 ^ (d1 - 1 + - e'))
      by (apply Z.pow_le_mono_r; subst e'; lia).
    rewrite !Z.pow_add_r in * by lia. subst N.
    assert (0 < 2 ^ 52) by (apply Z.pow_pos_nonneg; lia). nia. }
  pose proof (binary_round_aux_close sa N (Zpos pb) e' ltac:(subst N; nia)
                ltac:(lia) Hq ltac:(lia)) as H.
  destruct (binary_round_aux prec emax sa (N / Zpos pb) e' (loc_of N (Zpos pb)))
    as [| | |s m e]; try exact H.
  destruct H as (Hs & Hbd & n & Hn & -> & Hclose).
  split; [exact Hs|]. split; [exact Hbd|].
  replace (e' + n) with (n - - e') by lia.
  apply close_rescale; [lia|lia|lia|exact Hclose].
Qed.

(** The quotient of two integers, when it does not overflow, is a
    canonical binary64 number within half a unit in the last place of the
    exact quotient. *)
Lemma int_truediv_correctly_rounded (a b : Z) (x : spec_float) :
  0 < b -> Zdigits2 b <= 900 ->
  int_truediv a b = Ok x -> correctly_rounded x a b.
Proof.
  intros Hb Hd. unfold int_truediv.
  replace (b =? 0) with false by (symmetry; apply Z.eqb_neq; lia).
  destruct b as [|pb|pb]; try lia.
  destruct a as [|pa|pa]; cbn [Z_operand].
  - cbn [SFdiv xorb]. intros [= <-]. reflexivity.
  - pose proof (SFdiv_operands_close false pa pb Hd) as H.
    destruct (SFdiv prec emax _ _) as [| | |s m e]; try discriminate;
      try contradiction.
    intros [= <-]. exact H.
  - pose proof (SFdiv_operands_close true pa pb Hd) as H.
    destruct (SFdiv prec emax _ _) as [| | |s m e]; try discriminate;
      try contradiction.
    intros [= <-]. exact H.
Qed.

End TrueDivFacts.

(** ** [decode_response] *)

Module DecodeResponseFacts.
Import Py Decoder Phases Spec TrueDivFacts.

Lemma decode_response_phases isprintable (w : world) :
  decode_response isprintable w
  = match extract (document w) with
    | Ok f => render isprintable f w
    | Raise e => (Raise e, w)
    end.
Proof.
  unfold decode_response, extract, render, bind, eval, response_json.
  destruct (getitem (document w) (lit "response")) as [r|] eqn:Er;
    [|reflexivity].
  cbv beta iota delta [rbind].
  destruct (getitem r (lit "data")) as [data|]; [|reflexivity].
  destruct (getitem data (lit "from_xid")) as [b1|]; [|reflexivity].
  destruct (decode_bytes b1); [|reflexivity].
  destruct (getitem data (lit "to_xid")) as [b2|]; [|reflexivity].
  destruct (decode_bytes b2); [|reflexivity].
  destruct (getitem data (lit "amount")) as [amount|]; [|reflexivity].
  destruct (py_truediv amount 1000000000); [|reflexivity].
  destruct (getitem data (lit "coin_type")) as [b3|]; [|reflexivity].
  destruct (decode_bytes b3); [|reflexivity].
  rewrite Er.
  destruct (getitem r (lit "timestamp_ms")); [|reflexivity].
  rewrite Er.
  destruct (getitem r (lit "intent")); [|reflexivity].
  destruct (getitem (document w) (lit "signature")); reflexivity.
Qed.

(** *** Slices of a sequence *)

Lemma py_slice_head {A} (n : Z) (l : list A) :
  0 <= n -> py_slice None (Some n) l = firstn (Z.to_nat n) l.
Proof.
  intros Hn. unfold py_slice, slice_index.
  destruct (Z.ltb_spec n 0); [lia|].
  rewrite Z.sub_0_r. cbn [Z.to_nat skipn].
  destruct (Z.le_ge_cases n (Z.of_nat (List.length l))).
  - rewrite Z.min_l by lia. reflexivity.
  - rewrite Z.min_r by lia. rewrite Nat2Z.id.
    rewrite !firstn_all2 by lia. reflexivity.
Qed.

Lemma py_slice_tail {A} (n : Z) (l : list A) :
  n < 0 ->
  py_slice (Some n) None l = skipn (List.length l - Z.to_nat (- n)) l.
Proof.
  intros Hn. unfold py_slice, slice_index.
  destruct (Z.ltb_spec n 0); [|lia].
  set (len := Z.of_nat (List.length l)).
  assert (Hlo : Z.to_nat (Z.max (len + n) 0)
                = (List.length l - Z.to_nat (- n))%nat)
    by (subst len; lia).
  rewrite Hlo. apply firstn_all2. rewrite length_skipn. subst len. lia.
Qed.

Lemma signature_display_str isprintable (s : pystr) :
  signature_display isprintable (JStr s)
  = Ok (firstn 32 s ++ lit "..." ++ skipn (List.length s - 32) s).
Proof.
  unfold signature_display, getslice, rbind.
  rewrite py_slice_head, py_slice_tail by lia. reflexivity.
Qed.

(** C6. For every signature string, also one shorter than 64 characters,
    the abbreviated display is computed without an error: it is the first
    32 characters, an ellipsis and the last 32 characters, and both slices
    are the whole string when it has at most 32 characters. *)
Theorem C6_signature_display_total isprintable (s : pystr) :
  signature_display isprintable (JStr s)
  = Ok (firstn 32 s ++ lit "..." ++ skipn (List.length s - 32) s)
  /\ ((List.length s <= 32)%nat ->
      signature_display isprintable (JStr s) = Ok (s ++ lit "..." ++ s))
  /\ ((List.length s < 64)%nat ->
      (List.length s
       <= List.length (firstn 32 s)
          + List.length (skipn (List.length s - 32) s))%nat).
Proof.
  split; [apply signature_display_str|]. split.
  - intros Hlen. rewrite signature_display_str.
    rewrite firstn_all2 by lia.
    replace (List.length s - 32)%nat with 0%nat by lia. reflexivity.
  - intros Hlen. rewrite length_firstn, length_skipn. lia.
Qed.

(** The signature "AB" is displayed as "AB...AB". *)
Lemma C6_witness :
  signature_display (fun _ => true) (JStr (lit "AB")) = Ok (lit "AB...AB").
Proof.
  apply (proj1 (proj2 (C6_signature_display_total (fun _ => true) (lit "AB")))).
  cbn. lia.
Defined.



(** The first phase reads the amount at [response.data.amount] and
    divides it once. *)
Lemma extract_amount (doc : json) (f : fields) :
  extract doc = Ok f ->
  get_path doc [lit "response"; lit "data"; lit "amount"]
  = Some (amount_mist f)
  /\ py_truediv (amount_mist f) 1000000000 = Ok (amount_sui f).
Proof.
  unfold extract.
  destruct (getitem doc (lit "response")) as [r|] eqn:Er; [|discriminate].
  cbv beta iota delta [rbind].
  destruct (getitem r (lit "data")) as [data|] eqn:Ed; [|discriminate].
  destruct (getitem data (lit "from_xid")) as [b1|]; [|discriminate].
  destruct (decode_bytes b1); [|discriminate].
  destruct (getitem data (lit "to_xid")) as [b2|]; [|discriminate].
  destruct (decode_bytes b2); [|discriminate].
  destruct (getitem data (lit "amount")) as [amount|] eqn:Ea; [|discriminate].
  destruct (py_truediv amount 1000000000) as [x|] eqn:Ex; [|discriminate].
  destruct (getitem data (lit "coin_type")) as [b3|]; [|discriminate].
  destruct (decode_bytes b3); [|discriminate].
  destruct (getitem r (lit "timestamp_ms")); [|discriminate].
  destruct (getitem r (lit "intent")); [|discriminate].
  destruct (getitem doc (lit "signature")); [|discriminate].
  intros [= <-]. cbn [amount_mist amount_sui]. split; [|exact Ex].
  destruct doc as [| | | | | |d]; try discriminate Er.
  cbn [getitem] in Er. cbn [get_path].
  destruct (dict_get (lit "response") d) as [r'|]; [|discriminate Er].
  injection Er as ->.
  destruct r as [| | | | | |rd]; try discriminate Ed.
  cbn [getitem] in Ed.
  destruct (dict_get (lit "data") rd) as [data'|]; [|discriminate Ed].
  injection Ed as ->.
  destruct data as [| | | | | |dd]; try discriminate Ea.
  cbn [getitem] in Ea.
  destruct (dict_get (lit "amount") dd); [|discriminate Ea].
  injection Ea as ->. reflexivity.
Qed.

(** C2. For every input document with an integer [amount], the
    [amount_sui] that [decode_response] computes and prints is the one
    true division of that integer by 1,000,000,000: a canonical binary64
    number within half a unit in the last place of the exact quotient,
    with no other rounding or truncation. *)
Theorem C2_amount_sui_correctly_rounded
    isprintable (w : world) (f : fields) (a : Z) :
  extract (document w) = Ok f ->
  get_path (document w) [lit "response"; lit "data"; lit "amount"]
  = Some (JInt a) ->
  decode_response isprintable w = render isprintable f w
  /\ amount_mist f = JInt a
  /\ int_truediv a 1000000000 = Ok (amount_sui f)
  /\ correctly_rounded (amount_sui f) a 1000000000.
Proof.
  intros Hf Ha. destruct (extract_amount _ _ Hf) as [Hpath Hdiv].
  assert (Hm : amount_mist f = JInt a) by congruence.
  rewrite Hm in Hdiv. cbn [py_truediv] in Hdiv.
  split; [rewrite decode_response_phases, Hf; reflexivity|].
  split; [exact Hm|]. split; [exact Hdiv|].
  apply (int_truediv_correctly_rounded a 1000000000); [lia| |exact Hdiv].
  cbn. lia.
Qed.

(** One whole unit: 1,000,000,000 MIST is 1.0 SUI. *)
Lemma C2_witness :
  int_truediv 1000000000 1000000000
  = Ok (S754_finite false 4503599627370496 (-52))
  /\ correctly_rounded (S754_finite false 4503599627370496 (-52))
       1000000000 1000000000.
Proof.
  pose proof (C2_amount_sui_correctly_rounded (fun _ => true)
                (world_of (example_document (repeat 65 64)))
                {| from_xid := lit "X1"; to_xid := lit "X2";
                   amount_mist := JInt 1000000000;
                   amount_sui := S754_finite false 4503599627370496 (-52);
                   coin_type := lit "SUI";
                   timestamp_ms := JInt 1700000000000;
                   intent := JStr (lit "transfer");
                   signature := JStr (repeat 65 64) |}
                1000000000 eq_refl eq_refl) as (_ & _ & Hdiv & Hround).
  split; [exact Hdiv|exact Hround].
Defined.

End DecodeResponseFacts.

(** ** Missing keys *)

Module MissingKeyFacts.
Import Py Decoder Phases Spec DecodeResponseFacts.








End MissingKeyFacts.

(** ** The document is only read *)

Module FrameFacts.
Import Py Decoder Spec.

Lemma keeps_eval {A} (r : result A) : keeps_document (eval r).
Proof. intros w. reflexivity. Qed.

Lemma keeps_response_json : keeps_document response_json.
Proof. intros w. reflexivity. Qed.

Lemma keeps_print (s : pystr) : keeps_document (print s).
Proof. intros w. reflexivity. Qed.

Lemma keeps_bind {A B} (m : M A) (k : A -> M B) :
  keeps_document m -> (forall a, keeps_document (k a)) ->
  keeps_document (bind m k).
Proof.
  intros Hm Hk w. unfold bind. specialize (Hm w).
  destruct (m w) as [[a|e] w']; cbn [snd] in *.
  - rewrite (Hk a w'). exact Hm.
  - exact Hm.
Qed.

Create HintDb frame.
#[local] Hint Resolve keeps_eval keeps_response_json keeps_print : frame.
#[local] Hint Extern 2 (keeps_document (bind _ _)) =>
  apply keeps_bind; [|intros] : frame.

Lemma decode_response_keeps_document isprintable :
  keeps_document (decode_response isprintable).
Proof. unfold decode_response. auto 40 with frame. Qed.

(** C8. [decode_response] never changes its input: the document is the
    same after the call as before, however the call ends. *)
Theorem C8_decode_response_reads_only isprintable (w : world) :
  document (snd (decode_response isprintable w)) = document w.
Proof. apply decode_response_keeps_document. Qed.

(** The assignment of the main block does change it. *)
Example assign_response_changes_document :
  ~ keeps_document (assign_response (JInt 5)).
Proof.
  intros H. specialize (H (world_of JNull)). discriminate H.
Qed.

End FrameFacts.

(** ** The main block *)

Module MainFacts.
Import Py Decoder Spec.

Section Main.

Variable isprintable : Z -> bool.
Variable json_loads : pystr -> option json.

(** The main block with the path [path] as first argument. *)
Lemma main_reads_file (prog path : pystr) (more : list pystr) (w : world) :
  main isprintable json_loads (prog :: path :: more) w
  = match files w path with
    | None => (Raise OSError, w)
    | Some text =>
        match json_loads text with
        | None => (Raise JSONDecodeError, w)
        | Some doc => decode_response isprintable (with_document doc w)
        end
    end.
Proof.
  unfold main.
  replace (1 <? Z.of_nat (List.length (prog :: path :: more))) with true
    by (symmetry; apply Z.ltb_lt; cbn [List.length]; lia).
  cbn [nth]. unfold bind, read_file, json_load, eval, assign_response.
  destruct (files w path) as [text|]; [|reflexivity].
  destruct (json_loads text); reflexivity.
Qed.



End Main.


End MainFacts.

(** ** Every outcome of [decode_response] *)

Module ReportFacts.
Import Py Decoder Phases Spec Report DecodeResponseFacts.

(** An amount that could be divided can be shown with grouping. *)
Lemma truediv_ok_format_ok (x : json) (b : Z) (y : spec_float) :
  py_truediv x b = Ok y -> format_grouped x = Ok (amount_text x).
Proof. destruct x; try discriminate; reflexivity. Qed.

Lemma extract_ok_format_ok (doc : json) (f : fields) :
  extract doc = Ok f ->
  format_grouped (amount_mist f) = Ok (amount_text (amount_mist f)).
Proof.
  intros Hf. destruct (extract_amount _ _ Hf) as [_ Hdiv].
  exact (truediv_ok_format_ok _ _ _ Hdiv).
Qed.

(** The slices of lines 39 fail with [TypeError] only. *)
Lemma signature_display_sliceable isprintable (v : json) :
  if is_sliceable v
  then exists t, signature_display isprintable v = Ok t
  else signature_display isprintable v = Raise TypeError.
Proof. destruct v; cbn; eauto. Qed.

Lemma unlines_app (a b : list pystr) :
  unlines (a ++ b) = unlines a ++ unlines b.
Proof. apply flat_map_app. Qed.

(** *** Running the prints one by one *)

Lemma bind_print {B} (s : pystr) (k : unit -> M B) (w : world) :
  bind (print s) k w = k tt (with_stdout (stdout w ++ s ++ [10]) w).
Proof. reflexivity. Qed.

Lemma bind_eval {A B} (r : result A) (k : A -> M B) (w : world) :
  bind (eval r) k w
  = match r with Ok a => k a w | Raise e => (Raise e, w) end.
Proof. destruct r; reflexivity. Qed.

Lemma bind_bind {A B C} (m : M A) (k : A -> M B) (k' : B -> M C) (w : world) :
  bind (bind m k) k' w = bind m (fun a => bind (k a) k') w.
Proof. unfold bind. destruct (m w) as [[a|e] w']; reflexivity. Qed.

Lemma with_stdout_twice (t t' : pystr) (w : world) :
  with_stdout t (with_stdout t' w) = with_stdout t w.
Proof. reflexivity. Qed.

Lemma stdout_with_stdout (t : pystr) (w : world) :
  stdout (with_stdout t w) = t.
Proof. reflexivity. Qed.

(** Run the next statement of a sequence of prints. *)
Ltac run_print :=
  first [rewrite bind_print | rewrite bind_bind, bind_eval];
  cbv beta iota; rewrite ?stdout_with_stdout, ?with_stdout_twice.

(** The second phase when both formatted fields can be computed. *)
Lemma render_complete isprintable (f : fields) (shown : pystr) (w : world) :
  format_grouped (amount_mist f) = Ok (amount_text (amount_mist f)) ->
  signature_display isprintable (signature f) = Ok shown ->
  render isprintable f w
  = (Ok tt,
     with_stdout
       (stdout w ++ unlines (report_head isprintable f ++ report_tail shown))
       w).
Proof.
  intros Hfmt Hsig. unfold render. rewrite Hfmt, Hsig.
  repeat run_print. unfold print.
  rewrite stdout_with_stdout, with_stdout_twice.
  do 2 f_equal. unfold unlines, report_head, report_tail.
  cbn [flat_map app]. rewrite <- !app_assoc. reflexivity.
Qed.

(** The second phase when the signature cannot be sliced. *)
Lemma render_partial isprintable (f : fields) (e : exn) (w : world) :
  format_grouped (amount_mist f) = Ok (amount_text (amount_mist f)) ->
  signature_display isprintable (signature f) = Raise e ->
  render isprintable f w
  = (Raise e,
     with_stdout (stdout w ++ unlines (report_head isprintable f)) w).
Proof.
  intros Hfmt Hsig. unfold render. rewrite Hfmt, Hsig.
  repeat run_print.
  do 2 f_equal. unfold unlines, report_head.
  cbn [flat_map app]. rewrite <- !app_assoc. reflexivity.
Qed.

(** X2. Once every field has been read and the signature is a string or
    a list, [decode_response] ends normally and has appended exactly the
    sixteen lines of the report to standard output. *)
Theorem decode_response_complete_report
    isprintable (w : world) (f : fields) (shown : pystr) :
  extract (document w) = Ok f ->
  signature_display isprintable (signature f) = Ok shown ->
  decode_response isprintable w
  = (Ok tt,
     with_stdout
       (stdout w ++ unlines (report_head isprintable f ++ report_tail shown))
       w).
Proof.
  intros Hf Hsig. rewrite decode_response_phases, Hf.
  apply render_complete; [exact (extract_ok_format_ok _ _ Hf)|exact Hsig].
Qed.

(** A signature given as the list [[1, 2]] is shown by its [repr]. *)
Lemma decode_response_complete_report_witness :
  decode_response (fun _ => true)
    (world_of (document_signed (JList [JInt 1; JInt 2])))
  = (Ok tt,
     with_stdout
       (unlines (report_head (fun _ => true)
                   (fields_signed (JList [JInt 1; JInt 2]))
                 ++ report_tail (lit "[1, 2]...[1, 2]")))
       (world_of (document_signed (JList [JInt 1; JInt 2])))).
Proof.
  apply (decode_response_complete_report (fun _ => true)
           (world_of (document_signed (JList [JInt 1; JInt 2])))
           (fields_signed (JList [JInt 1; JInt 2]))
           (lit "[1, 2]...[1, 2]")); reflexivity.
Defined.

(** X3. When every field has been read and the signature is neither a
    string nor a list, [decode_response] ends with [TypeError] after the
    first eleven lines of the report have been printed. *)
Theorem decode_response_partial_report
    isprintable (w : world) (f : fields) :
  extract (document w) = Ok f ->
  is_sliceable (signature f) = false ->
  decode_response isprintable w
  = (Raise TypeError,
     with_stdout (stdout w ++ unlines (report_head isprintable f)) w).
Proof.
  intros Hf Hsig. rewrite decode_response_phases, Hf.
  pose proof (signature_display_sliceable isprintable (signature f)) as H.
  rewrite Hsig in H.
  apply render_partial; [exact (extract_ok_format_ok _ _ Hf)|exact H].
Qed.

(** A signature given as the number 5. *)
Lemma decode_response_partial_report_witness :
  decode_response (fun _ => true) (world_of (document_signed (JInt 5)))
  = (Raise TypeError,
     with_stdout
       (unlines (report_head (fun _ => true) (fields_signed (JInt 5))))
       (world_of (document_signed (JInt 5)))).
Proof.
  apply (decode_response_partial_report (fun _ => true)
           (world_of (document_signed (JInt 5))) (fields_signed (JInt 5)));
    reflexivity.
Defined.

(** X4. The three ways [decode_response] can end: with an exception of
    the first phase and nothing printed, normally with the whole report,
    or with the [TypeError] of the signature slice after eleven lines. *)
Theorem decode_response_outcomes isprintable (w : world) :
  (exists e, extract (document w) = Raise e
             /\ decode_response isprintable w = (Raise e, w))
  \/ (exists f shown,
        extract (document w) = Ok f
        /\ decode_response isprintable w
           = (Ok tt,
              with_stdout
                (stdout w
                 ++ unlines (report_head isprintable f ++ report_tail shown))
                w))
  \/ (exists f,
        extract (document w) = Ok f
        /\ decode_response isprintable w
           = (Raise TypeError,
              with_stdout (stdout w ++ unlines (report_head isprintable f)) w)).
Proof.
  destruct (extract (document w)) as [f|e] eqn:Hf.
  - pose proof (signature_display_sliceable isprintable (signature f)) as H.
    destruct (is_sliceable (signature f)) eqn:Hs.
    + destruct H as [shown Hshown]. right; left. exists f, shown.
      split; [reflexivity|].
      exact (decode_response_complete_report isprintable w f shown Hf Hshown).
    + right; right. exists f. split; [reflexivity|].
      exact (decode_response_partial_report isprintable w f Hf Hs).
  - left. exists e. split; [reflexivity|].
    rewrite decode_response_phases, Hf. reflexivity.
Qed.

End ReportFacts.

(** ** More on [decode_bytes] *)

Module DecodeBytesMore.
Import Py Decoder Spec Report Utf8Facts.

#[local] Opaque Z.add Z.mul Z.sub Z.div Z.modulo Z.ltb Z.leb Z.eqb.

Lemma bytes_of_items_range (l : list json) : forall bs,
  bytes_of_items l = Ok bs -> Forall is_byte bs.
Proof.
  unfold is_byte.
  induction l as [|v l IH]; intros bs; cbn [bytes_of_items].
  - intros [= <-]. constructor.
  - destruct (byte_of_item v) as [b|] eqn:Eb; [|discriminate].
    cbn [rbind]. destruct (bytes_of_items l) as [bs'|]; [|discriminate].
    cbn [rbind]. intros [= <-]. constructor; [|exact (IH _ eq_refl)].
    destruct v; try discriminate Eb; cbn [byte_of_item] in Eb.
    + destruct b0; injection Eb as <-; lia.
    + destruct (_ && _) eqn:E; [|discriminate Eb]. injection Eb as <-.
      bool_hyp E. lia.
Qed.

Lemma bytes_of_count_range (n : Z) (bs : pybytes) :
  bytes_of_count n = Ok bs -> bs = repeat 0 (Z.to_nat n) /\ Forall is_byte bs.
Proof.
  unfold bytes_of_count.
  destruct (n <? 0); [discriminate|].
  destruct (max_bytes_size <? n); [discriminate|].
  intros [= <-]. split; [reflexivity|].
  apply Forall_forall. intros b Hb. apply repeat_spec in Hb. subst b.
  unfold is_byte. lia.
Qed.

(** [bytes(x)] only ever holds values of [range(0, 256)]. *)
Lemma py_bytes_range (x : json) (bs : pybytes) :
  py_bytes x = Ok bs -> Forall is_byte bs.
Proof.
  destruct x as [| b | n | f | s | l | d]; cbn [py_bytes]; try discriminate.
  - intros H. exact (proj2 (bytes_of_count_range _ _ H)).
  - intros H. exact (proj2 (bytes_of_count_range _ _ H)).
  - apply bytes_of_items_range.
  - destruct d; [|discriminate]. intros [= <-]. constructor.
Qed.

Lemma utf8_encode_char_scalar (c : Z) (b : pybytes) :
  utf8_encode_char c = Some b -> scalar_value c.
Proof.
  unfold utf8_encode_char, scalar_value.
  destruct (Z.ltb_spec c 0); [discriminate|].
  destruct (Z.ltb_spec c 0x80); [lia|].
  destruct (Z.ltb_spec c 0x800); [lia|].
  destruct (Z.ltb_spec c 0x10000).
  { destruct (Z.leb_spec 0xD800 c); destruct (Z.ltb_spec c 0xE000);
      cbn [andb]; try discriminate; lia. }
  destruct (Z.ltb_spec c 0x110000); [lia|discriminate].
Qed.

Lemma utf8_encode_scalar (s : pystr) : forall bs,
  utf8_encode s = Some bs -> Forall scalar_value s.
Proof.
  induction s as [|c s IH]; intros bs; cbn [utf8_encode]; [constructor|].
  destruct (utf8_encode_char c) as [b|] eqn:Ec; [|discriminate].
  destruct (utf8_encode s) as [bs'|]; [|discriminate].
  intros _. constructor.
  - exact (utf8_encode_char_scalar _ _ Ec).
  - exact (IH _ eq_refl).
Qed.

(** X8. Whatever [decode_bytes] returns encodes back to exactly the bytes
    that [bytes(byte_array)] held: decoding loses nothing, and two
    different byte sequences never decode to the same string. *)
Theorem decode_bytes_reencodes (byte_array : json) (s : pystr) :
  decode_bytes byte_array = Ok s ->
  exists bs, py_bytes byte_array = Ok bs /\ Forall is_byte bs
             /\ utf8_encode s = Some bs.
Proof.
  unfold decode_bytes.
  destruct (py_bytes byte_array) as [bs|] eqn:Eb; [|discriminate].
  cbn [rbind]. unfold bytes_decode_utf8.
  destruct (utf8_decode bs) as [s'|] eqn:Ed; [|discriminate].
  intros [= <-]. exists bs. pose proof (py_bytes_range _ _ Eb) as Hr.
  split; [reflexivity|]. split; [exact Hr|].
  exact (utf8_encode_decode _ _ Hr Ed).
Qed.

Lemma decode_bytes_reencodes_witness :
  exists bs, py_bytes (int_array [226; 130; 172]) = Ok bs /\ Forall is_byte bs
             /\ utf8_encode [8364] = Some bs.
Proof.
  apply (decode_bytes_reencodes (int_array [226; 130; 172]) [8364]).
  reflexivity.
Defined.

(** X9. A string returned by [decode_bytes] holds Unicode scalar values
    only: no surrogate and nothing above U+10FFFF, whatever the input. *)
Theorem decode_bytes_scalar_values (byte_array : json) (s : pystr) :
  decode_bytes byte_array = Ok s -> Forall scalar_value s.
Proof.
  intros H. destruct (decode_bytes_reencodes _ _ H) as (bs & _ & _ & He).
  exact (utf8_encode_scalar _ _ He).
Qed.

Lemma decode_bytes_scalar_values_witness : Forall scalar_value [8364].
Proof.
  apply (decode_bytes_scalar_values (int_array [226; 130; 172]) [8364]).
  reflexivity.
Defined.

Lemma utf8_decode_ascii (l : list Z) :
  Forall (fun c => 0 <= c < 128) l -> utf8_decode l = Some l.
Proof.
  induction 1 as [|c l Hc _ IH]; cbn [utf8_decode]; [reflexivity|].
  rewrite IH. zcmp. reflexivity.
Qed.

(** X10. On an array of ASCII values [decode_bytes] is the identity: the
    code points of the string are the numbers of the array. *)
Theorem decode_bytes_ascii (l : list Z) :
  Forall (fun c => 0 <= c < 128) l -> decode_bytes (int_array l) = Ok l.
Proof.
  intros Hl. unfold decode_bytes.
  rewrite py_bytes_int_array
    by (eapply Forall_impl; [|exact Hl]; unfold is_byte; cbn beta; lia).
  cbn [rbind]. unfold bytes_decode_utf8. rewrite (utf8_decode_ascii l Hl).
  reflexivity.
Qed.

Lemma decode_bytes_ascii_witness :
  decode_bytes (int_array [83; 85; 73]) = Ok [83; 85; 73].
Proof.
  apply (decode_bytes_ascii [83; 85; 73]).
  repeat constructor; lia.
Defined.



Lemma utf8_encode_char_length (c : Z) (b : pybytes) :
  utf8_encode_char c = Some b -> (1 <= List.length b <= 4)%nat.
Proof.
  unfold utf8_encode_char.
  repeat match goal with
  | |- context [if ?t then _ else _] => destruct t
  end; try discriminate; intros [= <-]; cbn [List.length]; lia.
Qed.

Lemma utf8_encode_length (s : pystr) : forall bs,
  utf8_encode s = Some bs ->
  (List.length s <= List.length bs <= 4 * List.length s)%nat.
Proof.
  induction s as [|c s IH]; intros bs; cbn [utf8_encode].
  - intros [= <-]. cbn. lia.
  - destruct (utf8_encode_char c) as [b|] eqn:Ec; [|discriminate].
    destruct (utf8_encode s) as [bs'|]; [|discriminate].
    intros [= <-]. rewrite length_app. cbn [List.length].
    pose proof (utf8_encode_char_length _ _ Ec).
    pose proof (IH _ eq_refl). lia.
Qed.

(** X12. A decoded string has at most as many characters as the array
    had bytes, and at least a quarter as many. *)
Theorem decode_bytes_length (byte_array : json) (s : pystr) :
  decode_bytes byte_array = Ok s ->
  exists bs, py_bytes byte_array = Ok bs
             /\ (List.length s <= List.length bs <= 4 * List.length s)%nat.
Proof.
  intros H. destruct (decode_bytes_reencodes _ _ H) as (bs & Hb & _ & He).
  exists bs. split; [exact Hb|]. exact (utf8_encode_length _ _ He).
Qed.

Lemma decode_bytes_length_witness :
  exists bs, py_bytes (int_array [226; 130; 172]) = Ok bs
             /\ (1 <= List.length bs <= 4)%nat.
Proof.
  apply (decode_bytes_length (int_array [226; 130; 172]) [8364]).
  reflexivity.
Defined.

End DecodeBytesMore.

(** ** Exceptions and effects *)

Module EffectFacts.
Import Py Decoder Phases Spec Report DecodeResponseFacts ReportFacts.










(** X6. [decode_response] only appends to standard output: the files and
    standard input are as before, and what was on standard output is
    still there, followed by what the call printed. *)
Theorem decode_response_appends isprintable (w : world) :
  let w' := snd (decode_response isprintable w) in
  files w' = files w /\ stdin w' = stdin w
  /\ exists out, stdout w' = stdout w ++ out.
Proof.
  destruct (decode_response_outcomes isprintable w)
    as [(e0 & _ & ->) | [(f & shown & _ & ->) | (f & _ & ->)]];
    cbn [snd]; repeat split; try reflexivity.
  - exists []. rewrite app_nil_r. reflexivity.
  - eexists. reflexivity.
  - eexists. reflexivity.
Qed.

Section Main.

Variable isprintable : Z -> bool.
Variable json_loads : pystr -> option json.

(** X16. With no argument the prompt is printed before anything is read,
    then standard input is read to its end: text that does not parse
    gives [JSONDecodeError] with the prompt as only output, and a parsed
    document is decoded after the prompt.  No file is opened. *)
Theorem main_reads_stdin (argv : list pystr) (w : world) :
  (List.length argv <= 1)%nat ->
  main isprintable json_loads argv w
  = match json_loads (stdin w) with
    | None => (Raise JSONDecodeError, after_prompt w)
    | Some doc =>
        decode_response isprintable (with_document doc (after_prompt w))
    end.
Proof.
  intros Hlen. unfold main.
  replace (1 <? Z.of_nat (List.length argv)) with false
    by (symmetry; apply Z.ltb_ge; lia).
  unfold bind, print, read_stdin, json_load, eval, assign_response.
  cbn [stdin with_stdout].
  destruct (json_loads (stdin w)); reflexivity.
Qed.

(** X17. However it is called and however it ends, the program leaves the
    files alone and only appends to standard output; standard input is
    untouched when a path is given and read to its end otherwise. *)
Theorem main_effects (argv : list pystr) (w : world) :
  let w' := snd (main isprintable json_loads argv w) in
  files w' = files w
  /\ stdin w' = (if 1 <? Z.of_nat (List.length argv) then stdin w else [])
  /\ exists out, stdout w' = stdout w ++ out.
Proof.
  destruct (Z.ltb_spec 1 (Z.of_nat (List.length argv))) as [Hlt|Hge].
  - destruct argv as [|prog [|path more]]; cbn [List.length] in Hlt; try lia.
    rewrite MainFacts.main_reads_file.
    destruct (files w path) as [text|].
    + destruct (json_loads text) as [doc|].
      * exact (decode_response_appends isprintable (with_document doc w)).
      * cbn [snd]. repeat split. exists []. rewrite app_nil_r. reflexivity.
    + cbn [snd]. repeat split. exists []. rewrite app_nil_r. reflexivity.
  - rewrite main_reads_stdin by lia.
    destruct (json_loads (stdin w)) as [doc|].
    + destruct (decode_response_appends isprintable
                  (with_document doc (after_prompt w)))
        as (Hf & Hi & out & Ho).
      cbv zeta. rewrite Hf, Hi, Ho. repeat split.
      cbn [stdout with_document after_prompt with_stdin with_stdout].
      rewrite <- app_assoc. eexists. reflexivity.
    + cbn [snd]. repeat split. eexists. reflexivity.
Qed.

End Main.

Lemma main_reads_stdin_witness :
  main (fun _ => true) toy_json_loads [lit "decode_response.py"]
    (world_of JNull)
  = (Raise JSONDecodeError, after_prompt (world_of JNull)).
Proof.
  apply (main_reads_stdin (fun _ => true) toy_json_loads
           [lit "decode_response.py"] (world_of JNull)).
  cbn. lia.
Defined.

End EffectFacts.

(** ** When the division overflows *)

Module OverflowFacts.
Import Py Decoder Spec TrueDivFacts.

(** The rounding of a quotient of at least 53 digits, with its result
    written out: a mantissa of 53 digits, or infinity when the exponent
    is too large. *)
Lemma binary_round_aux_shape (s : bool) (N D e : Z) :
  0 <= N -> 0 < D -> 2 ^ 52 <= N / D -> -1021 <= e ->
  exists m n,
    0 <= n /\ 2 ^ 52 <= Zpos m < 2 ^ 53
    /\ 2 * Z.abs (Zpos m * (D * 2 ^ n) - N) <= D * 2 ^ n
    /\ binary_round_aux prec emax s (N / D) e (loc_of N D)
       = if e + n <=? emax - prec then S754_finite s m (e + n)
         else S754_infinity s.
Proof.
  intros HN HD Hq He. unfold binary_round_aux.
  destruct (shr_fexp_first N D e HN HD Hq He)
    as (mrs' & n & -> & Hn & Ht & Hm0).
  pose proof (round_nearest_even_close mrs' _ _ Ht) as [Hm1 Hclose].
  destruct Ht as (_ & HD' & Hm & _). rewrite <- Hm in Hm1.
  set (m1 := round_nearest_even (shr_m mrs') (loc_of_shr_record mrs')) in *.
  unfold shr_fexp.
  destruct (Z.eq_dec m1 (2 ^ 53)) as [Hcarry|Hnocarry].
  - rewrite Hcarry.
    replace (Zdigits2 (2 ^ 53)) with 54 by reflexivity.
    rewrite fexp_normal by lia.
    replace (54 + (e + n) - 53 - (e + n)) with 1 by lia.
    cbn [shr_record_of_loc shr iter_pos].
    change (shr_m (shr_1 {| shr_m := 2 ^ 53; shr_r := false; shr_s := false |}))
      with (Zpos (Z.to_pos (2 ^ 52))).
    exists (Z.to_pos (2 ^ 52)), (n + 1).
    split; [lia|]. split; [cbn; lia|]. split.
    + rewrite Hcarry in Hclose.
      rewrite Z.pow_add_r, Z.pow_1_r by lia.
      change (Zpos (Z.to_pos (2 ^ 52))) with (2 ^ 52).
      assert (0 < 2 ^ n) by (apply Z.pow_pos_nonneg; lia).
      nia.
    + replace (e + (n + 1)) with (e + n + 1) by lia. reflexivity.
  - assert (Hr : 2 ^ 52 <= m1 < 2 ^ 53) by lia.
    rewrite (Zdigits2_unique m1 53) by lia.
    rewrite fexp_normal by lia.
    replace (53 + (e + n) - 53 - (e + n)) with 0 by lia.
    cbn [shr].
    replace (shr_m (shr_record_of_loc m1 loc_Exact)) with m1 by reflexivity.
    destruct m1 as [|pm|pm] eqn:Em1; try lia.
    exists pm, n.
    split; [lia|]. split; [lia|]. split; [exact Hclose|reflexivity].
Qed.

Lemma pow2_lt_inv (x y : Z) : 0 <= y -> 2 ^ x < 2 ^ y -> x < y.
Proof.
  intros Hy H. destruct (Z.lt_ge_cases x y) as [|Hge]; [assumption|].
  assert (2 ^ y <= 2 ^ x) by (apply Z.pow_le_mono_r; lia). lia.
Qed.

(** The quotient of [a] by [b] has an exponent fixed, up to two, by the
    numbers of binary digits of [a] and [b]; it is infinite exactly when
    that exponent is above 971. *)
Lemma SFdiv_operands_exponent (sa : bool) (pa pb : positive) :
  Zdigits2 (Zpos pb) <= 900 ->
  exists m e,
    Zdigits2 (Zpos pa) - Zdigits2 (Zpos pb) - 53 <= e
    /\ e <= Zdigits2 (Zpos pa) - Zdigits2 (Zpos pb) - 51
    /\ SFdiv prec emax (S754_finite sa pa 0) (S754_finite false pb 0)
       = if e <=? emax - prec then S754_finite sa m e else S754_infinity sa.
Proof.
  intros Hd2. cbn [SFdiv]. rewrite SFdiv_core_binary_spec. cbv zeta.
  rewrite xorb_false_r.
  pose proof (Zdigits2_bounds (Zpos pa) ltac:(lia)) as [Ha Ha'].
  pose proof (Zdigits2_bounds (Zpos pb) ltac:(lia)) as [Hb' Hb].
  set (d1 := Zdigits2 (Zpos pa)) in *. set (d2 := Zdigits2 (Zpos pb)) in *.
  assert (Hd1 : 1 <= d1) by (subst d1; cbn; lia).
  assert (Hd2' : 1 <= d2) by (subst d2; cbn; lia).
  rewrite fexp_normal by lia.
  set (e' := Z.min (d1 - d2 - 53) 0).
  assert (He' : -1021 <= e' <= 0) by (subst e'; lia).
  set (N := Zpos pa * 2 ^ (- e')).
  assert (HX : 0 < 2 ^ (- e')) by (apply Z.pow_pos_nonneg; lia).
  assert (Hq : 2 ^ 52 <= N / Zpos pb).
  { apply Z.div_le_lower_bound; [lia|].
    assert (2 ^ (52 + d2) <= 2 ^ (d1 - 1 + - e'))
      by (apply Z.pow_le_mono_r; subst e'; lia).
    rewrite !Z.pow_add_r in * by lia. subst N.
    assert (0 < 2 ^ 52) by (apply Z.pow_pos_nonneg; lia). nia. }
  destruct (binary_round_aux_shape sa N (Zpos pb) e' ltac:(subst N; nia)
              ltac:(lia) Hq ltac:(lia))
    as (m & n & Hn & Hm & Hclose & ->).
  exists m, (e' + n). split; [|split; [|reflexivity]].
  - (* 2 a 2^s <= (2m+1) b 2^n < 2^(54 + d2 + n) *)
    assert (Hn2 : 0 < 2 ^ n) by (apply Z.pow_pos_nonneg; lia).
    assert (H1 : 2 * N <= (2 * Zpos m + 1) * (Zpos pb * 2 ^ n)) by lia.
    assert (H2 : (2 * Zpos m + 1) * (Zpos pb * 2 ^ n) < 2 ^ 54 * (2 ^ d2 * 2 ^ n)).
    { change (2 ^ 54) with (2 * 2 ^ 53).
      assert (Zpos pb * 2 ^ n < 2 ^ d2 * 2 ^ n) by nia.
      assert (0 < 2 ^ d2) by (apply Z.pow_pos_nonneg; lia).
      nia. }
    assert (H3 : 2 ^ (d1 + - e') <= 2 * N).
    { replace (d1 + - e') with ((d1 - 1) + 1 + - e') by lia.
      rewrite !Z.pow_add_r, Z.pow_1_r by lia. subst N. nia. }
    assert (H4 : 2 ^ (d1 + - e') < 2 ^ (54 + d2 + n)).
    { rewrite (Z.pow_add_r 2 (54 + d2) n), (Z.pow_add_r 2 54 d2) by lia. lia. }
    apply pow2_lt_inv in H4; lia.
  - (* 2^(52 + d2 - 1 + n) <= (2m-1) b 2^n <= 2 a 2^s < 2^(d1 + 1 + s) *)
    assert (Hn2 : 0 < 2 ^ n) by (apply Z.pow_pos_nonneg; lia).
    assert (H1 : (2 * Zpos m - 1) * (Zpos pb * 2 ^ n) <= 2 * N) by lia.
    assert (H2 : 2 ^ 52 * (2 ^ (d2 - 1) * 2 ^ n)
                 <= (2 * Zpos m - 1) * (Zpos pb * 2 ^ n)).
    { assert (2 ^ (d2 - 1) * 2 ^ n <= Zpos pb * 2 ^ n) by nia.
      assert (0 < 2 ^ (d2 - 1)) by (apply Z.pow_pos_nonneg; lia).
      assert (2 ^ 52 <= 2 * Zpos m - 1) by lia.
      nia. }
    assert (H3 : 2 * N < 2 ^ (d1 + 1 + - e')).
    { rewrite !Z.pow_add_r, Z.pow_1_r by lia. subst N. nia. }
    assert (H4 : 2 ^ (52 + (d2 - 1) + n) < 2 ^ (d1 + 1 + - e')).
    { rewrite (Z.pow_add_r 2 (52 + (d2 - 1)) n),
        (Z.pow_add_r 2 52 (d2 - 1)) by lia. lia. }
    apply pow2_lt_inv in H4; lia.
Qed.

Lemma Zdigits2_le (m d : Z) : 0 < m -> m < 2 ^ d -> 0 <= d -> Zdigits2 m <= d.
Proof.
  intros Hm Hlt Hd. pose proof (Zdigits2_bounds m Hm) as [Hlo _].
  assert (2 ^ (Zdigits2 m - 1) < 2 ^ d) by lia.
  apply pow2_lt_inv in H; lia.
Qed.

Lemma Zdigits2_ge (m d : Z) : 2 ^ d <= m -> 0 <= d -> d + 1 <= Zdigits2 m.
Proof.
  intros Hge Hd.
  assert (Hm : 0 < m) by (pose proof (Z.pow_pos_nonneg 2 d); lia).
  pose proof (Zdigits2_bounds m Hm) as [_ Hhi].
  assert (Hpos : 0 < Zdigits2 m) by (destruct m; cbn; lia).
  assert (2 ^ d < 2 ^ Zdigits2 m) by lia.
  apply pow2_lt_inv in H; lia.
Qed.

(** X13. The division of line 21 succeeds for every integer amount below
    [2^1052] in absolute value, which covers every amount of up to 316
    decimal digits. *)
Theorem py_truediv_no_overflow (a : Z) :
  Z.abs a < 2 ^ 1052 ->
  exists x, py_truediv (JInt a) 1000000000 = Ok x.
Proof.
  intros Ha. cbn [py_truediv]. unfold int_truediv.
  change (1000000000 =? 0) with false. cbv iota.
  destruct a as [|pa|pa]; cbn [Z_operand].
  - eexists. reflexivity.
  - destruct (SFdiv_operands_exponent false pa 1000000000%positive
                ltac:(cbn; lia)) as (m & e & _ & He & ->).
    pose proof (Zdigits2_le (Zpos pa) 1052 ltac:(lia) ltac:(lia) ltac:(lia)).
    change (Zdigits2 1000000000) with 30 in He.
    replace (e <=? emax - prec) with true
      by (symmetry; apply Z.leb_le; unfold emax, prec; lia).
    eexists. reflexivity.
  - destruct (SFdiv_operands_exponent true pa 1000000000%positive
                ltac:(cbn; lia)) as (m & e & _ & He & ->).
    pose proof (Zdigits2_le (Zpos pa) 1052 ltac:(lia) ltac:(lia) ltac:(lia)).
    change (Zdigits2 1000000000) with 30 in He.
    replace (e <=? emax - prec) with true
      by (symmetry; apply Z.leb_le; unfold emax, prec; lia).
    eexists. reflexivity.
Qed.

Lemma py_truediv_no_overflow_witness :
  exists x, py_truediv (JInt (10 ^ 300)) 1000000000 = Ok x.
Proof.
  apply (py_truediv_no_overflow (10 ^ 300)). vm_compute. reflexivity.
Defined.

(** X14. For an integer amount of absolute value [2^1054] or more the
    division raises [OverflowError]. *)
Theorem py_truediv_overflow (a : Z) :
  2 ^ 1054 <= Z.abs a ->
  py_truediv (JInt a) 1000000000 = Raise OverflowError.
Proof.
  intros Ha. cbn [py_truediv]. unfold int_truediv.
  change (1000000000 =? 0) with false. cbv iota.
  assert (H0 : 0 < 2 ^ 1054) by (apply Z.pow_pos_nonneg; lia).
  destruct a as [|pa|pa]; cbn [Z_operand]; [cbn [Z.abs] in Ha; lia| |].
  - destruct (SFdiv_operands_exponent false pa 1000000000%positive
                ltac:(cbn; lia)) as (m & e & He & _ & ->).
    pose proof (Zdigits2_ge (Zpos pa) 1054 ltac:(lia) ltac:(lia)).
    change (Zdigits2 1000000000) with 30 in He.
    replace (e <=? emax - prec) with false
      by (symmetry; apply Z.leb_gt; unfold emax, prec; lia).
    reflexivity.
  - destruct (SFdiv_operands_exponent true pa 1000000000%positive
                ltac:(cbn; lia)) as (m & e & He & _ & ->).
    pose proof (Zdigits2_ge (Zpos pa) 1054 ltac:(lia) ltac:(lia)).
    change (Zdigits2 1000000000) with 30 in He.
    replace (e <=? emax - prec) with false
      by (symmetry; apply Z.leb_gt; unfold emax, prec; lia).
    reflexivity.
Qed.

Lemma py_truediv_overflow_witness :
  py_truediv (JInt (10 ^ 400)) 1000000000 = Raise OverflowError.
Proof.
  apply (py_truediv_overflow (10 ^ 400)). vm_compute. discriminate.
Defined.

End OverflowFacts.

(** ** The grouped amount *)

Module GroupingFacts.
Import Py Decoder Spec Report.

Lemma uint_str_digits (u : Decimal.uint) :
  Forall (fun c => 48 <= c <= 57) (uint_str u).
Proof. induction u; cbn [uint_str]; constructor; (lia || assumption). Qed.

Lemma without_commas_id (s : pystr) :
  Forall (fun c => c <> 44) s -> without_commas s = s.
Proof.
  unfold without_commas. induction 1 as [|c s Hc _ IH]; cbn [filter].
  - reflexivity.
  - replace (c =? 44) with false by (symmetry; apply Z.eqb_neq; exact Hc).
    cbn [negb]. rewrite IH. reflexivity.
Qed.

Lemma group3_four (a b c d : Z) (more : pystr) :
  group3 (a :: b :: c :: d :: more) = a :: b :: c :: 44 :: group3 (d :: more).
Proof. reflexivity. Qed.

Lemma without_commas_cons (c : Z) (s : pystr) :
  without_commas (c :: s)
  = if c =? 44 then without_commas s else c :: without_commas s.
Proof. unfold without_commas. cbn [filter]. destruct (c =? 44); reflexivity. Qed.

Lemma without_commas_group3_upto (n : nat) : forall l,
  (List.length l <= n)%nat -> Forall (fun c => c <> 44) l ->
  without_commas (group3 l) = l.
Proof.
  induction n as [|n IH]; intros l Hlen Hl.
  - destruct l; [reflexivity|cbn in Hlen; lia].
  - destruct l as [|a [|b [|c [|d more]]]];
      try (cbn [group3]; apply without_commas_id; assumption).
    rewrite group3_four.
    inversion Hl as [|? ? Ha Hl1]; subst.
    inversion Hl1 as [|? ? Hb Hl2]; subst.
    inversion Hl2 as [|? ? Hc Hl3]; subst.
    rewrite !without_commas_cons.
    replace (a =? 44) with false by (symmetry; apply Z.eqb_neq; exact Ha).
    replace (b =? 44) with false by (symmetry; apply Z.eqb_neq; exact Hb).
    replace (c =? 44) with false by (symmetry; apply Z.eqb_neq; exact Hc).
    change (44 =? 44) with true. cbv iota. do 3 f_equal.
    apply IH; [cbn [List.length] in *; lia|exact Hl3].
Qed.

Lemma without_commas_grouped (digits : pystr) :
  Forall (fun c => c <> 44) digits ->
  without_commas (group_thousands digits) = digits.
Proof.
  intros Hd. unfold group_thousands, without_commas.
  rewrite filter_rev. fold (without_commas (group3 (rev digits))).
  rewrite (without_commas_group3_upto (List.length (rev digits)))
    by (try lia; apply Forall_rev; exact Hd).
  apply rev_involutive.
Qed.

(** X15. The text shown for an integer amount on the Amount (MIST) line is
    its decimal numeral with commas put in: without the commas it is
    [str(amount)], sign and digits. *)
Theorem format_grouped_int (n : Z) :
  exists t, format_grouped (JInt n) = Ok t /\ without_commas t = int_str n.
Proof.
  exists (int_format_grouped n). split; [reflexivity|].
  unfold int_format_grouped, int_str, without_commas.
  rewrite filter_app. f_equal.
  - destruct (n <? 0); reflexivity.
  - apply without_commas_grouped. unfold digits_str.
    eapply Forall_impl; [|destruct (Z.to_int n); apply uint_str_digits].
    cbn beta. lia.
Qed.

End GroupingFacts.

(** ** Only the seven values matter *)

Module LeavesFacts.
Import Py Decoder Phases Spec Report DecodeResponseFacts ReportFacts.

Lemma nested_objects_inv (doc : json) :
  nested_objects doc = true ->
  exists top rd dd,
    doc = JDict top
    /\ dict_get (lit "response") top = Some (JDict rd)
    /\ dict_get (lit "data") rd = Some (JDict dd).
Proof.
  unfold nested_objects, object_at. rewrite !andb_true_iff.
  intros [[H0 H1] H2]. cbn [get_path] in H0.
  destruct doc as [| | | | | |top]; try discriminate H0.
  cbn [get_path] in H1, H2.
  destruct (dict_get (lit "response") top) as [r|] eqn:Er; [|discriminate H1].
  destruct r as [| | | | | |rd]; try discriminate H1.
  cbn [get_path] in H2.
  destruct (dict_get (lit "data") rd) as [d|] eqn:Ed; [|discriminate H2].
  cbn [get_path] in H2.
  destruct d as [| | | | | |dd]; try discriminate H2.
  exists top, rd, dd. split; [reflexivity|]. split; assumption.
Qed.

(** The first phase of two documents with the same seven values. *)
Lemma extract_same_leaves (doc doc' : json) :
  nested_objects doc = true -> nested_objects doc' = true ->
  leaves doc = leaves doc' ->
  extract doc = extract doc'.
Proof.
  intros H H' Hl.
  destruct (nested_objects_inv _ H) as (top & rd & dd & -> & Hr & Hd).
  destruct (nested_objects_inv _ H') as (top' & rd' & dd' & -> & Hr' & Hd').
  unfold leaves, leaf_paths in Hl. cbn [map get_path] in Hl.
  rewrite Hr, Hr' in Hl. cbn [get_path] in Hl.
  rewrite Hd, Hd' in Hl. cbn [get_path] in Hl.
  injection Hl as L1 L2 L3 L4 L5 L6 L7.
  assert (G : forall d k,
            match dict_get k d with
            | Some v => get_path v [] | None => None end = dict_get k d).
  { intros d k. destruct (dict_get k d); reflexivity. }
  rewrite !G in *.
  unfold extract. cbn [getitem]. rewrite Hr, Hr'.
  cbv beta iota delta [rbind]. cbn [getitem]. rewrite Hd, Hd'.
  cbv beta iota. cbn [getitem].
  rewrite L1, L2, L3, L4, L5, L6, L7. reflexivity.
Qed.

(** What [decode_response] returns and prints is decided by the result
    of its first phase and by what standard output held. *)
Lemma decode_response_by_extract isprintable (w w' : world) :
  extract (document w) = extract (document w') ->
  stdout w = stdout w' ->
  fst (decode_response isprintable w) = fst (decode_response isprintable w')
  /\ stdout (snd (decode_response isprintable w))
     = stdout (snd (decode_response isprintable w')).
Proof.
  intros He Ho. rewrite !decode_response_phases, <- He.
  destruct (extract (document w)) as [f|e] eqn:Hf; [|cbn; auto].
  pose proof (extract_ok_format_ok _ _ Hf) as Hfmt.
  pose proof (signature_display_sliceable isprintable (signature f)) as Hs.
  destruct (is_sliceable (signature f)).
  - destruct Hs as [shown Hs].
    rewrite !(render_complete _ _ _ _ Hfmt Hs). cbn [fst snd].
    rewrite !stdout_with_stdout, Ho. auto.
  - rewrite !(render_partial _ _ _ _ Hfmt Hs). cbn [fst snd].
    rewrite !stdout_with_stdout, Ho. auto.
Qed.

(** X7. For documents made of the three nested objects, only the seven
    values under the keys that are read matter: two documents that agree
    on them give the same result and the same output, whatever other
    keys they hold and in whatever order. *)
Theorem decode_response_same_leaves isprintable (doc doc' : json) (w : world) :
  nested_objects doc = true -> nested_objects doc' = true ->
  leaves doc = leaves doc' ->
  fst (decode_response isprintable (with_document doc w))
  = fst (decode_response isprintable (with_document doc' w))
  /\ stdout (snd (decode_response isprintable (with_document doc w)))
     = stdout (snd (decode_response isprintable (with_document doc' w))).
Proof.
  intros H H' Hl. apply decode_response_by_extract; [|reflexivity].
  exact (extract_same_leaves _ _ H H' Hl).
Qed.

(** The keys of the example in another order, with three more keys. *)
Lemma decode_response_same_leaves_witness :
  fst (decode_response (fun _ => true)
         (with_document (example_document (lit "AB")) (world_of JNull)))
  = fst (decode_response (fun _ => true)
           (with_document (reordered_document (lit "AB")) (world_of JNull)))
  /\ stdout (snd (decode_response (fun _ => true)
         (with_document (example_document (lit "AB")) (world_of JNull))))
     = stdout (snd (decode_response (fun _ => true)
           (with_document (reordered_document (lit "AB")) (world_of JNull)))).
Proof.
  apply (decode_response_same_leaves (fun _ => true)
           (example_document (lit "AB")) (reordered_document (lit "AB"))
           (world_of JNull)); reflexivity.
Defined.

End LeavesFacts.

(** ** Valid documents are decoded *)

Module ValidFacts.
Import Py Decoder Phases Spec Report Utf8Facts TrueDivFacts.
Import DecodeResponseFacts ReportFacts OverflowFacts LeavesFacts.




End ValidFacts.
